(** * PyTeal subroutines: definitions, calls and the calling convention

    A shallow embedding of [pyteal/ast/subroutine.py].  Python objects become
    records, raised exceptions become the left injection of a result type, and
    the mutable state the module touches (the subroutine id counter, the
    scratch slot counter, the per-definition declaration cache) is threaded
    explicitly through a [World].  A host implementation runs with that state
    in its hands and may call back into the module while it is invoked. *)

From stdpp Require Import gmap strings list pretty.

Open Scope string_scope.
Open Scope list_scope.

Set Warnings "-register-all,-clear-no-such-hyp".

(** ** Exceptions and results *)

(** One constructor per [raise TealInputError(...)] site of the module, carrying
    the data the message is formatted from. *)
Inductive InputError :=
| NotCallable
| InputTypesLength (given detected : nat)
| DisallowedReturnAnnotation
| DisallowedParameterKind (name : string)
| ParameterHasDefault (name : string)
| AnnotationNotAClass (name : string)
| DisallowedAnnotation (name : string)
| ContradictoryInputType (name : string)
| IncorrectArgumentCount (expected got : nat)
| ArgumentKindMismatch (index : nat)
| UnexpectedArgument (index : nat)
| ArgumentEvaluatesToNone (index : nat)
| BodyNotExpr
| VersionTooLow (minVersion version : nat)
| SeqTypeMismatch (index : nat).

Inductive Exception :=
| TealInputError (why : InputError)
| PyException (what : string).

(** [Res A]: the call raised, or returned a value. *)
Definition Res (A : Type) : Type := Exception + A.

Definition raise {A} (e : Exception) : Res A := inl e.
Definition ret {A} (a : A) : Res A := inr a.

Definition bind {A B} (r : Res A) (k : A -> Res B) : Res B :=
  match r with
  | inl e => inl e
  | inr a => k a
  end.

Notation "x <- r ;; k" := (bind r (fun x => k))
  (at level 100, r at next level, right associativity).

(** ** Types, instructions and expressions consumed from the compiler *)

(** Modelled from the spec: the static types of expressions; [none] is the
    type of an expression that produces no value.  The enumeration is
    imported by the module, not defined in it. *)
Module TealType.
Inductive t := uint64 | bytes | anytype | none.

#[global] Instance eq_dec : EqDecision t.
Proof. solve_decision. Defined.
End TealType.

(** Modelled from the spec: a scratch slot is an indexed storage cell. *)
Record ScratchSlot := { slot_id : nat }.

(** Modelled from the spec: the instructions of the target machine, of which
    the module itself names only [callsub]. *)
Inductive Op := Op_int | Op_load | Op_store | Op_callsub | Op_other (name : string).

(** Instruction arguments.  A [callsub] instruction carries its target
    definition; the definition is represented by its id, the key under which
    definitions are compared and hashed. *)
Inductive TealArg :=
| ArgInt (n : nat)
| ArgSlot (s : ScratchSlot)
| ArgSubroutine (id : nat).

Record TealOp := { op : Op; op_args : list TealArg }.

(** Modelled from the spec: the compile context carries the target version. *)
Record CompileOptions := { version : nat }.

(** Modelled from the spec: the expression AST capability consumed from the
    surrounding compiler ([lower(context)], [type_of()], [has_return()]), the
    sequencing combinator, and the expressions a scratch slot produces
    ([store()], [load()], the slot-index accessor).  Any other expression is an
    [ExternalExpr], given by what its three methods return. *)
Inductive Expr :=
| ExternalExpr (ty : TealType.t) (returns : bool)
               (lower : CompileOptions -> Res (list TealOp))
| ScratchLoad (slot : ScratchSlot) (ty : TealType.t)
| ScratchStackStore (slot : ScratchSlot)
| ScratchIndex (slot : ScratchSlot)
| Seq (args : list Expr).

Fixpoint type_of (e : Expr) : TealType.t :=
  match e with
  | ExternalExpr ty _ _ => ty
  | ScratchLoad _ ty => ty
  | ScratchStackStore _ => TealType.none
  | ScratchIndex _ => TealType.uint64
  | Seq args =>
      (fix last_type (l : list Expr) : TealType.t :=
         match l with
         | [] => TealType.none
         | [x] => type_of x
         | _ :: l' => last_type l'
         end) args
  end.

Fixpoint has_return (e : Expr) : bool :=
  match e with
  | ExternalExpr _ r _ => r
  | Seq args =>
      (fix last_ret (l : list Expr) : bool :=
         match l with
         | [] => false
         | [x] => has_return x
         | _ :: l' => last_ret l'
         end) args
  | _ => false
  end.

(** [e.__teal__(options)]: the ordered instructions [e] lowers to. *)
Fixpoint teal (options : CompileOptions) (e : Expr) : Res (list TealOp) :=
  match e with
  | ExternalExpr _ _ lower => lower options
  | ScratchLoad s _ => ret [ {| op := Op_load; op_args := [ArgSlot s] |} ]
  | ScratchStackStore s => ret [ {| op := Op_store; op_args := [ArgSlot s] |} ]
  | ScratchIndex s => ret [ {| op := Op_int; op_args := [ArgSlot s] |} ]
  | Seq args =>
      (fix each (l : list Expr) : Res (list TealOp) :=
         match l with
         | [] => ret []
         | x :: l' => c <- teal options x ;; cs <- each l' ;; ret (c ++ cs)
         end) args
  end.

(** Modelled from the spec: [Seq(exprs)] composes an ordered list of
    expressions, all but the last evaluated for effect only, so each of those
    must produce no value. *)
Fixpoint Seq_check (i : nat) (exprs : list Expr) : Res unit :=
  match exprs with
  | [] => ret tt
  | [_] => ret tt
  | x :: rest =>
      if decide (type_of x = TealType.none) then Seq_check (S i) rest
      else raise (TealInputError (SeqTypeMismatch i))
  end.

Definition Seq_new (exprs : list Expr) : Res Expr :=
  _ <- Seq_check 0 exprs ;; ret (Seq exprs).

(** Modelled from the spec: scratch variables.  A [ScratchVar] owns a slot
    drawn from the shared slot counter; [DynamicScratchVar] is the variant
    whose slot holds the index of another slot. *)
Record ScratchVar := { slot : ScratchSlot; type : TealType.t }.

Record DynamicScratchVar := { dyn_slot : ScratchSlot; dynamic_type : TealType.t }.

Definition ScratchSlot_store (s : ScratchSlot) : Expr := ScratchStackStore s.

Definition ScratchVar_load (v : ScratchVar) : Expr := ScratchLoad (slot v) (type v).

Definition ScratchVar_index (v : ScratchVar) : Expr := ScratchIndex (slot v).

(** Modelled from the spec: the slot of a dynamic variable holds the index of
    another slot, so what its index accessor yields is the content of its own
    slot (an integer), and its load goes through that index ([loads]). *)
Definition DynamicScratchVar_index (v : DynamicScratchVar) : Expr :=
  ScratchLoad (dyn_slot v) TealType.uint64.

Definition DynamicScratchVar_load (v : DynamicScratchVar) : Expr :=
  ExternalExpr (dynamic_type v) false
    (λ options,
       c <- teal options (DynamicScratchVar_index v) ;;
       ret (c ++ [ {| op := Op_other "loads"; op_args := [] |} ])).

(** ** Host-language values *)

(** What a call site may be handed as an argument, and what a host function
    may return: an [Expr] instance, a [ScratchVar] instance, an instance of
    its subclass [DynamicScratchVar], or anything else. *)
Inductive PyValue :=
| PyExpr (e : Expr)
| PyScratchVar (v : ScratchVar)
| PyDynamicScratchVar (v : DynamicScratchVar)
| PyOther (repr : string).

(** The two classes allowed as parameter annotations. *)
Inductive ArgClass := ExprClass | ScratchVarClass.

#[global] Instance ArgClass_eq_dec : EqDecision ArgClass.
Proof. solve_decision. Defined.

Definition isinstance (arg : PyValue) (atype : ArgClass) : bool :=
  match arg, atype with
  | PyExpr _, ExprClass => true
  | PyScratchVar _, ScratchVarClass => true
  | PyDynamicScratchVar _, ScratchVarClass => true
  | _, _ => false
  end.

(** The objects found in a function's [__annotations__]. *)
Inductive Annotation :=
| AnnClass (c : ArgClass)
| AnnOtherClass (name : string)
| AnnNone
| AnnNotAClass (repr : string).

Inductive ParameterKind :=
| POSITIONAL_ONLY
| POSITIONAL_OR_KEYWORD
| VAR_POSITIONAL
| KEYWORD_ONLY
| VAR_KEYWORD.

(** [param.default]: [Parameter.empty], or an object.  For an object the
    constructor evaluates [param.default != Parameter.empty]; [differs] is
    what that gives: true for an ordinary object, whatever an overloaded
    [!=] returns otherwise, or the exception it raises (as for an [Expr]). *)
Inductive ParameterDefault :=
| Parameter_empty
| Default (differs : Res bool).

Record SigParameter := { kind : ParameterKind; param_default : ParameterDefault }.

(** What the calling convention hands to the host implementation for one
    parameter: the load expression of a plain slot, or a dynamic handle. *)
Inductive Loaded :=
| LoadedExpr (e : Expr)
| LoadedVar (v : DynamicScratchVar).

(** ** The state of the module *)

(** What a definition's [declaration] attribute holds once compiled: the
    identity of the declaration object and its body.  The declaration's
    [subroutine] is the definition that owns the attribute. *)
Record CachedDeclaration := { cached_oid : nat; cached_body : Expr }.

(** The mutable state: the class attribute [SubroutineDefinition.nextSubroutineId],
    the scratch slot counter, the object allocator, the [declaration] attribute
    of every definition, and a log of the host implementations invoked so far
    (by definition id, most recent first).  The log is no attribute of any
    Python object: it is written where [evaluateSubroutine] calls the
    implementation, and read by the statements only. *)
Record World := {
  nextSubroutineId : nat;
  nextSlotId : nat;
  nextObjectId : nat;
  declarations : gmap nat CachedDeclaration;
  implementation_calls : list nat
}.

Definition set_nextSubroutineId (n : nat) (w : World) : World :=
  {| nextSubroutineId := n; nextSlotId := nextSlotId w;
     nextObjectId := nextObjectId w; declarations := declarations w;
     implementation_calls := implementation_calls w |}.

Definition set_nextSlotId (n : nat) (w : World) : World :=
  {| nextSubroutineId := nextSubroutineId w; nextSlotId := n;
     nextObjectId := nextObjectId w; declarations := declarations w;
     implementation_calls := implementation_calls w |}.

Definition set_nextObjectId (n : nat) (w : World) : World :=
  {| nextSubroutineId := nextSubroutineId w; nextSlotId := nextSlotId w;
     nextObjectId := n; declarations := declarations w;
     implementation_calls := implementation_calls w |}.

Definition set_declarations (m : gmap nat CachedDeclaration) (w : World) : World :=
  {| nextSubroutineId := nextSubroutineId w; nextSlotId := nextSlotId w;
     nextObjectId := nextObjectId w; declarations := m;
     implementation_calls := implementation_calls w |}.

Definition log_implementation_call (i : nat) (w : World) : World :=
  {| nextSubroutineId := nextSubroutineId w; nextSlotId := nextSlotId w;
     nextObjectId := nextObjectId w; declarations := declarations w;
     implementation_calls := i :: implementation_calls w |}.

(** How often the implementation of definition [i] has been invoked. *)
Definition times_invoked (i : nat) (w : World) : nat :=
  length (filter (λ j, j = i) (implementation_calls w)).

(** What a running implementation can ask of the module: the declaration of
    the definition with a given id, its own included
    ([getDeclaration()], reached also through a wrapper's [type_of()] and
    [has_return()]). *)
Record Api := {
  request_declaration : nat -> World -> Res CachedDeclaration * World
}.

(** A host-authored callable: its [__name__] when it has one (a function
    has; a callable instance or a [functools.partial] has not),
    [signature(f).parameters] in order, its [__annotations__], and its
    behaviour when called.  It runs with the state of the module in its
    hands: it may allocate scratch slots, construct definitions and, through
    [Api], ask for declarations; it may raise, or return something that is
    not an expression. *)
Record HostFunction := {
  fn_name : string;
  has_name : bool;
  parameters : list (string * SigParameter);
  annotations : gmap string Annotation;
  call : Api -> list Loaded -> World -> Res PyValue * World
}.

(** What the constructor may be handed as [implementation]: something that
    is not callable, a callable of which [signature()] raises (some
    builtins), or a callable with a signature. *)
Inductive PyCallable :=
| NonCallable (repr : string)
| Uninspectable (e : Exception)
| Function (f : HostFunction).

(** ** The three classes of the module *)

(** The immutable attributes of a [SubroutineDefinition].  Its one mutable
    attribute, [declaration], lives in the [World], keyed by [id]. *)
Record SubroutineDefinition := {
  id : nat;
  input_types : option (list TealType.t);
  by_ref_args : gset string;
  expected_arg_types : list ArgClass;
  implementation : HostFunction;
  implementationParams : list (string * SigParameter);
  returnType : TealType.t;
  name : string
}.

(** [oid] is the identity of the Python object. *)
Record SubroutineDeclaration := {
  oid : nat;
  decl_subroutine : SubroutineDefinition;
  body : Expr
}.

(** A declaration as stored in, and read back from, its definition. *)
Definition cache_of (decl : SubroutineDeclaration) : CachedDeclaration :=
  {| cached_oid := oid decl; cached_body := body decl |}.

Definition declaration_of (self : SubroutineDefinition) (c : CachedDeclaration)
  : SubroutineDeclaration :=
  {| oid := cached_oid c; decl_subroutine := self; body := cached_body c |}.

Record SubroutineCall := {
  subroutine : SubroutineDefinition;
  args : list PyValue
}.

(** ** SubroutineDefinition *)

Section Init.
(** [Expr.type_of()] as called on the class object in
    [_validate_parameter_type]; class [Expr] is defined outside this module. *)
Variable Expr_type_of : Res TealType.t.

(** [d.get(key, None)]: a missing key and a stored [None] look the same. *)
Definition dict_get (d : gmap string Annotation) (key : string) : option Annotation :=
  match d !! key with
  | Some AnnNone => None
  | o => o
  end.

Definition _validate_parameter_type
    (user_defined_annotations : gmap string Annotation)
    (parameter_name : string)
    (input_type : option TealType.t) : Res ArgClass :=
  match dict_get user_defined_annotations parameter_name with
  | None => ret ExprClass
  | Some (AnnNotAClass _) =>
      raise (TealInputError (AnnotationNotAClass parameter_name))
  | Some (AnnOtherClass _) | Some AnnNone =>
      raise (TealInputError (DisallowedAnnotation parameter_name))
  | Some (AnnClass ptype) =>
      match ptype, input_type with
      | ExprClass, Some it =>
          t <- Expr_type_of ;;
          if decide (t ≠ it)
          then raise (TealInputError (ContradictoryInputType parameter_name))
          else ret ptype
      | _, _ => ret ptype
      end
  end.

(** Python truth value of an [Optional[TealType]]: [None] is false, every
    enum member is true. *)
Definition truthy (o : option TealType.t) : bool :=
  match o with
  | None => false
  | Some _ => true
  end.

Definition positional (k : ParameterKind) : bool :=
  match k with
  | POSITIONAL_ONLY | POSITIONAL_OR_KEYWORD => true
  | _ => false
  end.

(** One iteration of the loop over [sig_params.items()]. *)
Definition check_parameter
    (input_types : option (list TealType.t))
    (annotations : gmap string Annotation)
    (i : nat) (name : string) (param : SigParameter) : Res ArgClass :=
  if negb (positional (kind param))
  then raise (TealInputError (DisallowedParameterKind name))
  else
    has_default <-
      match param_default param with
      | Parameter_empty => ret false
      | Default differs => differs
      end ;;
    if has_default : bool
    then raise (TealInputError (ParameterHasDefault name))
    else
    let input_type : option TealType.t := None in
    input_type <-
      (if truthy input_type
       then match input_types with
            | None => raise (PyException "TypeError")
            | Some l =>
                match l !! i with
                | Some t => ret (Some t)
                | None => raise (PyException "IndexError")
                end
            end
       else ret input_type) ;;
    _validate_parameter_type annotations name input_type.

Fixpoint check_parameters
    (input_types : option (list TealType.t))
    (annotations : gmap string Annotation)
    (i : nat) (sig_params : list (string * SigParameter))
    (expected_arg_types : list ArgClass) (by_ref_args : gset string)
  : Res (list ArgClass * gset string) :=
  match sig_params with
  | [] => ret (expected_arg_types, by_ref_args)
  | (name, param) :: rest =>
      expected_arg_type <- check_parameter input_types annotations i name param ;;
      check_parameters input_types annotations (S i) rest
        (expected_arg_types ++ [expected_arg_type])
        (match expected_arg_type with
         | ScratchVarClass => {[name]} ∪ by_ref_args
         | ExprClass => by_ref_args
         end)
  end.

(** The body of [SubroutineDefinition.__init__] after the id is taken:
    [callable], [signature] (which may raise), the length of the input
    types, the return annotation, the loop over the parameters and, last,
    the name, for which [implementation.__name__] is read when no name is
    given. *)
Definition init_attributes
    (self_id : nat) (implementation : PyCallable) (returnType : TealType.t)
    (nameStr : option string) (input_types : option (list TealType.t))
  : Res SubroutineDefinition :=
  match implementation with
  | NonCallable _ => raise (TealInputError NotCallable)
  | Uninspectable e => raise e
  | Function f =>
      let sig_params := parameters f in
      if match input_types with
         | Some l => negb (Nat.eqb (length l) (length sig_params))
         | None => false
         end
      then raise (TealInputError
                    (InputTypesLength (length (default [] input_types))
                                      (length sig_params)))
      else
        let annotations := annotations f in
        if match annotations !! "return" with
           | Some (AnnClass ExprClass) | None => false
           | Some _ => true
           end
        then raise (TealInputError DisallowedReturnAnnotation)
        else
          checked <- check_parameters input_types annotations 0 sig_params [] ∅ ;;
          name <-
            match nameStr with
            | Some nameStr => ret nameStr
            | None =>
                if has_name f then ret (fn_name f)
                else raise (PyException "AttributeError")
            end ;;
          ret {| id := self_id;
                 input_types := input_types;
                 by_ref_args := snd checked;
                 expected_arg_types := fst checked;
                 implementation := f;
                 implementationParams := sig_params;
                 returnType := returnType;
                 name := name |}
  end.

(** [SubroutineDefinition.__init__]: the id counter advances before anything
    is checked.  [self.declaration = None] concerns the new object only; when
    the constructor raises, the object is dropped and no cache changes. *)
Definition SubroutineDefinition_init
    (implementation : PyCallable) (returnType : TealType.t)
    (nameStr : option string) (input_types : option (list TealType.t))
    (w : World) : Res SubroutineDefinition * World :=
  let self_id := nextSubroutineId w in
  let w := set_nextSubroutineId (nextSubroutineId w + 1) w in
  match init_attributes self_id implementation returnType nameStr input_types with
  | inl e => (inl e, w)
  | inr self => (inr self, set_declarations (delete self_id (declarations w)) w)
  end.

End Init.

Definition argumentCount (self : SubroutineDefinition) : nat :=
  length (implementationParams self).

Definition arguments (self : SubroutineDefinition) : list string :=
  (implementationParams self).*1.

(** ** SubroutineCall *)

(** The static type the constructor reads off an argument:
    [arg.type_of()] for an [Expr], the attribute [arg.type] for a
    [ScratchVar] of either class. *)
Definition arg_type (arg : PyValue) : option TealType.t :=
  match arg with
  | PyExpr e => Some (type_of e)
  | PyScratchVar v => Some (type v)
  | PyDynamicScratchVar v => Some (dynamic_type v)
  | PyOther _ => None
  end.

(** The loop of [SubroutineCall.__init__] over [enumerate(args)]. *)
Fixpoint check_args (i : nat) (args : list PyValue) : Res unit :=
  match args with
  | [] => ret tt
  | arg :: rest =>
      match arg_type arg with
      | None => raise (TealInputError (UnexpectedArgument i))
      | Some arg_type =>
          if decide (arg_type = TealType.none)
          then raise (TealInputError (ArgumentEvaluatesToNone i))
          else check_args (S i) rest
      end
  end.

(** [SubroutineCall.__init__]. *)
Definition SubroutineCall_init
    (subroutine : SubroutineDefinition) (args : list PyValue) : Res SubroutineCall :=
  _ <- check_args 0 args ;;
  ret {| subroutine := subroutine; args := args |}.

Section Lowering.
(** [Op.callsub.min_version]; the [Op] table is defined outside this module. *)
Variable callsub_min_version : nat.

(** Modelled from the spec: the compile context's version gate, failing
    when the instruction is unsupported at the target version. *)
Definition verifyTealVersion (minVersion version : nat) : Res unit :=
  if decide (version < minVersion)
  then raise (TealInputError (VersionTooLow minVersion version))
  else ret tt.

(** The local function [handle_arg] of [SubroutineCall.__teal__]:
    [arg.index()] for an instance of [ScratchVar], the subclass with its own
    [index]. *)
Definition handle_arg (arg : PyValue) : PyValue :=
  match arg with
  | PyScratchVar v => PyExpr (ScratchVar_index v)
  | PyDynamicScratchVar v => PyExpr (DynamicScratchVar_index v)
  | _ => arg
  end.

(** [x.__teal__(options)] on whatever [handle_arg] returned. *)
Definition PyValue_teal (options : CompileOptions) (x : PyValue) : Res (list TealOp) :=
  match x with
  | PyExpr e => teal options e
  | _ => raise (PyException "AttributeError")
  end.

(** Modelled from the spec: [TealBlock.FromOp(options, op, *args)] lowers
    the arguments in order and appends [op]. *)
Fixpoint FromOp (options : CompileOptions) (op : TealOp) (args : list PyValue)
  : Res (list TealOp) :=
  match args with
  | [] => ret [op]
  | x :: rest =>
      c <- PyValue_teal options x ;;
      cs <- FromOp options op rest ;;
      ret (c ++ cs)
  end.

(** [SubroutineCall.__teal__]. *)
Definition SubroutineCall_teal (self : SubroutineCall) (options : CompileOptions)
  : Res (list TealOp) :=
  _ <- verifyTealVersion callsub_min_version (version options) ;;
  let op := {| op := Op_callsub; op_args := [ArgSubroutine (id (subroutine self))] |} in
  FromOp options op (handle_arg <$> args self).

(** A call node used as an expression inside another expression. *)
Definition SubroutineCall_as_Expr (self : SubroutineCall) : Expr :=
  ExternalExpr (returnType (subroutine self)) false (SubroutineCall_teal self).
End Lowering.

(** ** SubroutineDefinition.invoke *)

(** The loop of [invoke] over [enumerate(args)]. *)
Fixpoint check_kinds (expected_arg_types : list ArgClass) (i : nat) (args : list PyValue)
  : Res unit :=
  match args with
  | [] => ret tt
  | arg :: rest =>
      match expected_arg_types !! i with
      | None => raise (PyException "IndexError")
      | Some atype =>
          if isinstance arg atype then check_kinds expected_arg_types (S i) rest
          else raise (TealInputError (ArgumentKindMismatch i))
      end
  end.

Definition invoke (self : SubroutineDefinition) (args : list PyValue) : Res SubroutineCall :=
  if decide (length args ≠ argumentCount self)
  then raise (TealInputError (IncorrectArgumentCount (argumentCount self) (length args)))
  else
    _ <- check_kinds (expected_arg_types self) 0 args ;;
    SubroutineCall_init self args.

(** ** SubroutineDeclaration *)

Definition SubroutineDeclaration_init
    (subroutine : SubroutineDefinition) (body : Expr) (w : World)
  : SubroutineDeclaration * World :=
  ({| oid := nextObjectId w; decl_subroutine := subroutine; body := body |},
   set_nextObjectId (nextObjectId w + 1) w).

Definition SubroutineDeclaration_teal (self : SubroutineDeclaration) (options : CompileOptions)
  : Res (list TealOp) :=
  teal options (body self).

Definition SubroutineDeclaration_type_of (self : SubroutineDeclaration) : TealType.t :=
  type_of (body self).

Definition SubroutineDeclaration_has_return (self : SubroutineDeclaration) : bool :=
  has_return (body self).

(** ** The calling convention: evaluateSubroutine *)

(** Modelled from the spec: a fresh scratch slot takes the next number of the
    one counter shared by the whole program under compilation. *)
Definition ScratchSlot_new (w : World) : ScratchSlot * World :=
  ({| slot_id := nextSlotId w |}, set_nextSlotId (nextSlotId w + 1) w).

Definition ScratchVar_new (ty : TealType.t) (w : World) : ScratchVar * World :=
  let (s, w) := ScratchSlot_new w in ({| slot := s; type := ty |}, w).

Definition DynamicScratchVar_new (ty : TealType.t) (w : World) : DynamicScratchVar * World :=
  let (s, w) := ScratchSlot_new w in ({| dyn_slot := s; dynamic_type := ty |}, w).

(** An element of [argumentVars]: either kind of variable, both with a [slot]. *)
Inductive ArgVar :=
| PlainVar (v : ScratchVar)
| DynVar (v : DynamicScratchVar).

Definition ArgVar_slot (var : ArgVar) : ScratchSlot :=
  match var with
  | PlainVar v => slot v
  | DynVar v => dyn_slot v
  end.

(** The local function [var_n_loaded]. *)
Definition var_n_loaded (subroutine : SubroutineDefinition) (param : string) (w : World)
  : (ArgVar * Loaded) * World :=
  if decide (param ∈ by_ref_args subroutine) then
    let (argVar, w) := DynamicScratchVar_new TealType.anytype w in
    ((DynVar argVar, LoadedVar argVar), w)
  else
    let (argVar, w) := ScratchVar_new TealType.anytype w in
    ((PlainVar argVar, LoadedExpr (ScratchVar_load argVar)), w).

(** [map(var_n_loaded, args)], consumed left to right. *)
Fixpoint map_var_n_loaded (subroutine : SubroutineDefinition) (args : list string) (w : World)
  : list (ArgVar * Loaded) * World :=
  match args with
  | [] => ([], w)
  | param :: rest =>
      let (x, w) := var_n_loaded subroutine param w in
      let (xs, w) := map_var_n_loaded subroutine rest w in
      (x :: xs, w)
  end.

(** [evaluateSubroutine].  [api] is what asking for a declaration does while
    the implementation runs. *)
Definition evaluateSubroutine (api : Api) (subroutine : SubroutineDefinition) (w : World)
  : Res SubroutineDeclaration * World :=
  let args := arguments subroutine in
  let (pairs, w) := map_var_n_loaded subroutine args w in
  let argumentVars := pairs.*1 in
  let loadedArgs := pairs.*2 in
  let (result, w) :=
    call (implementation subroutine) api loadedArgs
      (log_implementation_call (id subroutine) w) in
  match result with
  | inl e => (raise e, w)
  | inr (PyExpr subroutineBody) =>
      let bodyOps :=
        ((λ var, ScratchSlot_store (ArgVar_slot var)) <$> reverse argumentVars)
        ++ [subroutineBody] in
      match Seq_new bodyOps with
      | inl e => (raise e, w)
      | inr seq =>
          let (decl, w) := SubroutineDeclaration_init subroutine seq w in
          (ret decl, w)
      end
  | inr _ => (raise (TealInputError BodyNotExpr), w)
  end.

(** ** SubroutineDefinition.getDeclaration *)

(** The requests a running implementation can make, given what a request for
    a definition's declaration does: [registry] gives the definition an
    implementation means by an id. *)
Definition Api_of
    (request : SubroutineDefinition -> World -> Res SubroutineDeclaration * World)
    (registry : nat -> option SubroutineDefinition) : Api :=
  {| request_declaration := λ i w,
       match registry i with
       | None => (raise (PyException "NameError"), w)
       | Some other =>
           match request other w with
           | (inl e, w) => (inl e, w)
           | (inr decl, w) => (inr (cache_of decl), w)
           end
       end |}.

(** [getDeclaration].  An implementation may ask for declarations while it
    is invoked, so compilations nest; [depth] is how deep the interpreter
    lets them nest before it raises [RecursionError]. *)
Fixpoint getDeclaration (depth : nat) (registry : nat -> option SubroutineDefinition)
    (self : SubroutineDefinition) (w : World) : Res SubroutineDeclaration * World :=
  match declarations w !! id self with
  | None =>
      match depth with
      | 0 => (raise (PyException "RecursionError"), w)
      | S depth =>
          match evaluateSubroutine (Api_of (getDeclaration depth registry) registry)
                  self w with
          | (inl e, w) => (raise e, w)
          | (inr decl, w) =>
              (ret decl,
               set_declarations (<[id self := cache_of decl]> (declarations w)) w)
          end
      end
  | Some cached => (ret (declaration_of self cached), w)
  end.

(** [n] requests in a row, collecting what each returned. *)
Fixpoint getDeclaration_times (n : nat) (depth : nat)
    (registry : nat -> option SubroutineDefinition)
    (self : SubroutineDefinition) (w : World)
  : list (Res SubroutineDeclaration) * World :=
  match n with
  | 0 => ([], w)
  | S n =>
      let (r, w) := getDeclaration depth registry self w in
      let (rs, w) := getDeclaration_times n depth registry self w in
      (r :: rs, w)
  end.

(** ** Specification-side descriptions used in the statements *)

(** The class a parameter is declared with: its annotation, [Expr] when it
    has none. *)
Definition annotated_class (annotations : gmap string Annotation) (name : string)
  : ArgClass :=
  match dict_get annotations name with
  | Some (AnnClass c) => c
  | _ => ExprClass
  end.

(** The requests open to an implementation invoked by a [getDeclaration] of
    depth [S depth]. *)
Definition api_below (depth : nat) (registry : nat -> option SubroutineDefinition) : Api :=
  Api_of (getDeclaration depth registry) registry.

(** The state in which [evaluateSubroutine], started in [w], invokes the
    implementation: the parameter slots are allocated and the invocation is
    logged. *)
Definition entered (subroutine : SubroutineDefinition) (w : World) : World :=
  log_implementation_call (id subroutine)
    (set_nextSlotId (nextSlotId w + argumentCount subroutine) w).

(** The handle exposed to the authored body for an allocated variable. *)
Definition exposed (var : ArgVar) : Loaded :=
  match var with
  | PlainVar v => LoadedExpr (ScratchVar_load v)
  | DynVar v => LoadedVar v
  end.

(** The variable allocated for the parameter [param] declared at position [i],
    when allocation starts at slot number [first]. *)
Definition argumentVar_at (subroutine : SubroutineDefinition) (first i : nat) (param : string)
  : ArgVar :=
  let s := {| slot_id := first + i |} in
  if decide (param ∈ by_ref_args subroutine)
  then DynVar {| dyn_slot := s; dynamic_type := TealType.anytype |}
  else PlainVar {| slot := s; type := TealType.anytype |}.

Definition argumentVars_from (subroutine : SubroutineDefinition) (first : nat) : list ArgVar :=
  imap (argumentVar_at subroutine first) (arguments subroutine).

(** The store of the slot allocated for the parameter at position [i]. *)
Definition store_of_param (first i : nat) : Expr :=
  ScratchSlot_store {| slot_id := first + i |}.

(** The stores of the slots of all parameters, last declared first. *)
Definition prologue (subroutine : SubroutineDefinition) (first : nat) : list Expr :=
  store_of_param first <$> reverse (seq 0 (argumentCount subroutine)).

(** What the constructor of [SubroutineCall] accepts: an [Expr] or a
    [ScratchVar], plain or dynamic, whose static type is not
    [TealType.none]. *)
Definition acceptable (arg : PyValue) : Prop :=
  match arg with
  | PyExpr e => type_of e ≠ TealType.none
  | PyScratchVar v => type v ≠ TealType.none
  | PyDynamicScratchVar v => dynamic_type v ≠ TealType.none
  | PyOther _ => False
  end.

(** Every argument passes the kind check of [invoke]: it is an instance of
    the class expected at its position. *)
Definition kinds_match (expected : list ArgClass) (args : list PyValue) : Prop :=
  ∀ i arg, args !! i = Some arg →
           ∃ atype, expected !! i = Some atype ∧ isinstance arg atype = true.

(** The arguments before position [i] pass the kind check. *)
Definition kinds_match_before (expected : list ArgClass) (args : list PyValue) (i : nat)
  : Prop :=
  ∀ j arg, (j < i)%nat → args !! j = Some arg →
           ∃ atype, expected !! j = Some atype ∧ isinstance arg atype = true.

(** No argument is statically typed [TealType.none]. *)
Definition none_typed_free (args : list PyValue) : Prop :=
  ∀ i arg, args !! i = Some arg → arg_type arg ≠ Some TealType.none.

(** The instructions one argument contributes at a call site: a plain
    variable the push of its slot's number, a dynamic variable the load of
    its slot, which holds a slot number, an expression its own lowering. *)
Definition pushes (options : CompileOptions) (arg : PyValue) (code : list TealOp) : Prop :=
  match arg with
  | PyScratchVar v => code = [ {| op := Op_int; op_args := [ArgSlot (slot v)] |} ]
  | PyDynamicScratchVar v =>
      code = [ {| op := Op_load; op_args := [ArgSlot (dyn_slot v)] |} ]
  | PyExpr e => teal options e = inr code
  | PyOther _ => False
  end.

(** ** Sample programs *)

Definition Int (n : nat) : Expr :=
  ExternalExpr TealType.uint64 false
    (λ _, ret [ {| op := Op_int; op_args := [ArgInt n] |} ]).

Definition Add (a b : Expr) : Expr :=
  ExternalExpr TealType.uint64 false
    (λ options,
       ca <- teal options a ;;
       cb <- teal options b ;;
       ret (ca ++ cb ++ [ {| op := Op_other "+"; op_args := [] |} ])).

(** [Pop(e)]: evaluates [e] and discards it, so it is typed [TealType.none]. *)
Definition Pop (e : Expr) : Expr :=
  ExternalExpr TealType.none false
    (λ options,
       c <- teal options e ;;
       ret (c ++ [ {| op := Op_other "pop"; op_args := [] |} ])).

Definition plain : SigParameter :=
  {| kind := POSITIONAL_OR_KEYWORD; param_default := Parameter_empty |}.

(** [def add(a: Expr, b: Expr) -> Expr: return a + b] *)
Definition add_fn : HostFunction :=
  {| fn_name := "add"; has_name := true;
     parameters := [("a", plain); ("b", plain)];
     annotations := {[ "a" := AnnClass ExprClass; "b" := AnnClass ExprClass;
                       "return" := AnnClass ExprClass ]};
     call := λ _ loaded w,
       match loaded with
       | [LoadedExpr a; LoadedExpr b] => (ret (PyExpr (Add a b)), w)
       | _ => (raise (PyException "TypeError"), w)
       end |}.

(** [def mix(p0: Expr, p1: ScratchVar, p2): return Int(7)] *)
Definition mix_fn : HostFunction :=
  {| fn_name := "mix"; has_name := true;
     parameters := [("p0", plain); ("p1", plain); ("p2", plain)];
     annotations := {[ "p0" := AnnClass ExprClass; "p1" := AnnClass ScratchVarClass ]};
     call := λ _ loaded w,
       match loaded with
       | [_; _; _] => (ret (PyExpr (Int 7)), w)
       | _ => (raise (PyException "TypeError"), w)
       end |}.

(** [def answer(): return Int(42)] *)
Definition answer_fn : HostFunction :=
  {| fn_name := "answer"; has_name := true;
     parameters := [];
     annotations := ∅;
     call := λ _ loaded w,
       match loaded with
       | [] => (ret (PyExpr (Int 42)), w)
       | _ => (raise (PyException "TypeError"), w)
       end |}.

(** [def one(a: Expr): return a] *)
Definition one_fn : HostFunction :=
  {| fn_name := "one"; has_name := true;
     parameters := [("a", plain)];
     annotations := {[ "a" := AnnClass ExprClass ]};
     call := λ _ loaded w,
       match loaded with
       | [LoadedExpr a] => (ret (PyExpr a), w)
       | _ => (raise (PyException "TypeError"), w)
       end |}.

(** [def nothing(): return None] *)
Definition nothing_fn : HostFunction :=
  {| fn_name := "nothing"; has_name := true;
     parameters := [];
     annotations := ∅;
     call := λ _ _ w, (ret (PyOther "None"), w) |}.

Definition world0 : World :=
  {| nextSubroutineId := 0; nextSlotId := 256; nextObjectId := 0;
     declarations := ∅; implementation_calls := [] |}.

(** The definitions [SubroutineDefinition(f, TealType.uint64)] builds. *)
Definition definition_of (i : nat) (f : HostFunction) (expected : list ArgClass)
    (by_ref : gset string) : SubroutineDefinition :=
  {| id := i; input_types := None; by_ref_args := by_ref;
     expected_arg_types := expected; implementation := f;
     implementationParams := parameters f; returnType := TealType.uint64;
     name := fn_name f |}.

Definition add_def : SubroutineDefinition :=
  definition_of 0 add_fn [ExprClass; ExprClass] ∅.

Definition mix_def : SubroutineDefinition :=
  definition_of 0 mix_fn [ExprClass; ScratchVarClass; ExprClass] {["p1"]}.

Definition answer_def : SubroutineDefinition := definition_of 0 answer_fn [] ∅.

Definition one_def : SubroutineDefinition := definition_of 0 one_fn [ExprClass] ∅.

Definition nothing_def : SubroutineDefinition := definition_of 0 nothing_fn [] ∅.

Definition caller_var : ScratchVar :=
  {| slot := {| slot_id := 5 |}; type := TealType.uint64 |}.

Definition v4 : CompileOptions := {| version := 4 |}.
Definition v3 : CompileOptions := {| version := 3 |}.

(** [mix(Int(1), x, Int(2))] for a caller-owned variable [x]. *)
Definition mix_call : SubroutineCall :=
  {| subroutine := mix_def;
     args := [PyExpr (Int 1); PyScratchVar caller_var; PyExpr (Int 2)] |}.

(** ** The remaining operations of the module *)

(** [SubroutineDefinition.__str__]: the id is printed in decimal. *)
Definition SubroutineDefinition_str (self : SubroutineDefinition) : string :=
  "subroutine#" +:+ pretty (id self).

(** What [__eq__] may be compared with. *)
Inductive PyObject :=
| ODefinition (d : SubroutineDefinition)
| OAnything (repr : string).

Section Equality.
(** [==] on two implementations and the builtin [hash] on an [int]; both
    belong to the host language. *)
Variable function_eqb : HostFunction -> HostFunction -> bool.
Variable hash : nat -> Z.

(** [SubroutineDefinition.__eq__]. *)
Definition SubroutineDefinition_eq (self : SubroutineDefinition) (other : PyObject) : bool :=
  match other with
  | ODefinition other =>
      Nat.eqb (id self) (id other)
      && function_eqb (implementation self) (implementation other)
  | OAnything _ => false
  end.

(** [SubroutineDefinition.__hash__]. *)
Definition SubroutineDefinition_hash (self : SubroutineDefinition) : Z :=
  hash (id self).
End Equality.

(** [SubroutineCall.type_of] and [SubroutineCall.has_return]. *)
Definition SubroutineCall_type_of (self : SubroutineCall) : TealType.t :=
  returnType (subroutine self).

Definition SubroutineCall_has_return (self : SubroutineCall) : bool := false.

(** [SubroutineFnWrapper]: its only attribute is the definition it builds. *)
Record SubroutineFnWrapper := { wrapped : SubroutineDefinition }.

Definition SubroutineFnWrapper_init
    (Expr_type_of : Res TealType.t)
    (fnImplementation : PyCallable) (returnType : TealType.t)
    (name : option string) (input_types : option (list TealType.t))
    (w : World) : Res SubroutineFnWrapper * World :=
  match SubroutineDefinition_init Expr_type_of fnImplementation returnType name
          input_types w with
  | (inl e, w) => (inl e, w)
  | (inr d, w) => (inr {| wrapped := d |}, w)
  end.

(** What [SubroutineFnWrapper.__call__] does: it raises its own
    [TealInputError], listing the keys of the keyword arguments, or hands the
    positional arguments to [invoke]. *)
Inductive CallOutcome :=
| KeywordArgumentsRejected (keys : list string)
| Invoked (r : Res SubroutineCall).

Definition SubroutineFnWrapper_call
    (self : SubroutineFnWrapper) (args : list PyValue)
    (kwargs : list (string * PyValue)) : CallOutcome :=
  if decide (length kwargs ≠ 0)
  then KeywordArgumentsRejected kwargs.*1
  else Invoked (invoke (wrapped self) args).

Definition SubroutineFnWrapper_name (self : SubroutineFnWrapper) : string :=
  name (wrapped self).

Definition SubroutineFnWrapper_type_of (depth : nat)
    (registry : nat -> option SubroutineDefinition)
    (self : SubroutineFnWrapper) (w : World) : Res TealType.t * World :=
  match getDeclaration depth registry (wrapped self) w with
  | (inl e, w) => (inl e, w)
  | (inr decl, w) => (inr (SubroutineDeclaration_type_of decl), w)
  end.

Definition SubroutineFnWrapper_has_return (depth : nat)
    (registry : nat -> option SubroutineDefinition)
    (self : SubroutineFnWrapper) (w : World) : Res bool * World :=
  match getDeclaration depth registry (wrapped self) w with
  | (inl e, w) => (inl e, w)
  | (inr decl, w) => (inr (SubroutineDeclaration_has_return decl), w)
  end.

(** The decorator class [Subroutine]. *)
Module Subroutine.
Record t := {
  returnType : TealType.t;
  name : option string;
  input_types : option (list TealType.t)
}.

(** [Subroutine.__call__]. *)
Definition call (Expr_type_of : Res TealType.t) (self : t)
    (fnImplementation : PyCallable) (w : World) : Res SubroutineFnWrapper * World :=
  SubroutineFnWrapper_init Expr_type_of fnImplementation
    (returnType self) (name self) (input_types self) w.
End Subroutine.

(** ** Further descriptions used in the statements *)

(** One construction request: the arguments of [SubroutineDefinition(...)]. *)
Record Request := {
  req_implementation : PyCallable;
  req_returnType : TealType.t;
  req_nameStr : option string;
  req_input_types : option (list TealType.t)
}.

(** Constructions made one after the other. *)
Fixpoint init_all (Expr_type_of : Res TealType.t) (reqs : list Request) (w : World)
  : list (Res SubroutineDefinition) * World :=
  match reqs with
  | [] => ([], w)
  | req :: rest =>
      let (r, w) :=
        SubroutineDefinition_init Expr_type_of (req_implementation req)
          (req_returnType req) (req_nameStr req) (req_input_types req) w in
      let (rs, w) := init_all Expr_type_of rest w in
      (r :: rs, w)
  end.

(** A parameter the constructor lets through: positional, with no default
    (or one that [!=] does not tell from [Parameter.empty]), and annotated
    with [Expr], with [ScratchVar] or not at all. *)
Definition parameter_allowed (annotations : gmap string Annotation)
    (p : string * SigParameter) : Prop :=
  positional (kind p.2) = true
  ∧ (param_default p.2 = Parameter_empty ∨ param_default p.2 = Default (inr false))
  ∧ match dict_get annotations p.1 with
    | None | Some (AnnClass _) => True
    | Some _ => False
    end.

Definition return_allowed (annotations : gmap string Annotation) : Prop :=
  annotations !! "return" = None
  ∨ annotations !! "return" = Some (AnnClass ExprClass).

(** The arguments with which the constructor returns. *)
Definition constructible (implementation : PyCallable) (nameStr : option string)
    (input_types : option (list TealType.t)) : Prop :=
  match implementation with
  | NonCallable _ | Uninspectable _ => False
  | Function f =>
      match input_types with
      | None => True
      | Some l => length l = length (parameters f)
      end
      ∧ return_allowed (annotations f)
      ∧ Forall (parameter_allowed (annotations f)) (parameters f)
      ∧ (nameStr = None → has_name f = true)
  end.

(** What the constructor raises for a parameter it does not let through:
    the kind is looked at first, then the default, whose comparison with
    [Parameter.empty] may itself raise, then the annotation. *)
Definition parameter_error (annotations : gmap string Annotation)
    (p : string * SigParameter) : Exception :=
  if negb (positional (kind p.2)) then TealInputError (DisallowedParameterKind p.1)
  else match param_default p.2 with
       | Default (inl e) => e
       | Default (inr true) => TealInputError (ParameterHasDefault p.1)
       | _ =>
           match dict_get annotations p.1 with
           | Some (AnnNotAClass _) => TealInputError (AnnotationNotAClass p.1)
           | _ => TealInputError (DisallowedAnnotation p.1)
           end
       end.

(** The lowering of a list of expressions one after the other, as [Seq]
    does it. *)
Fixpoint teal_all (options : CompileOptions) (exprs : list Expr) : Res (list TealOp) :=
  match exprs with
  | [] => ret []
  | x :: rest => c <- teal options x ;; cs <- teal_all options rest ;; ret (c ++ cs)
  end.

(** The numbers of the slots [evaluateSubroutine] allocates for the
    parameters, in declaration order, when started in [w]. *)
Definition parameter_slots (subroutine : SubroutineDefinition) (w : World) : list nat :=
  (λ var, slot_id (ArgVar_slot var))
    <$> (map_var_n_loaded subroutine (arguments subroutine) w).1.*1.

(** The handles [evaluateSubroutine] passes to the implementation. *)
Definition loaded_handles (subroutine : SubroutineDefinition) (w : World) : list Loaded :=
  (map_var_n_loaded subroutine (arguments subroutine) w).1.*2.

(** Modelled from the spec: the stack machine's [store] pops the top of the
    stack into its slot.  The stack is a list, top first; a program made of
    anything but stores is not run. *)
Fixpoint run_stores {V} (program : list TealOp) (stack : list V) (scratch : gmap nat V)
  : option (list V * gmap nat V) :=
  match program with
  | [] => Some (stack, scratch)
  | {| op := Op_store; op_args := [ArgSlot s] |} :: rest =>
      match stack with
      | v :: stack => run_stores rest stack (<[slot_id s := v]> scratch)
      | [] => None
      end
  | _ :: _ => None
  end.

(** The stack after the values were pushed in order onto [below]. *)
Definition pushed {V} (values below : list V) : list V := reverse values ++ below.

(** The instruction a store expression lowers to. *)
Definition store_op (first i : nat) : TealOp :=
  {| op := Op_store; op_args := [ArgSlot {| slot_id := first + i |}] |}.

(** [def late(x: ScratchVar)]: the body is returned only once the slot
    counter has passed 300, before that the function returns [None]. *)
Definition late_fn : HostFunction :=
  {| fn_name := "late"; has_name := true;
     parameters := [("x", plain)];
     annotations := {[ "x" := AnnClass ScratchVarClass ]};
     call := λ _ loaded w,
       if decide (300 ≤ nextSlotId w)%nat then (ret (PyExpr (Int 0)), w)
       else (ret (PyOther "None"), set_nextSlotId (nextSlotId w + 50) w) |}.

Definition late_def : SubroutineDefinition :=
  definition_of 7 late_fn [ScratchVarClass] {["x"]}.

(** [Expr.type_of()] called on the class: the method lacks its [self]. *)
Definition class_call_raises : Res TealType.t := inl (PyException "TypeError").

Definition request_of (implementation : PyCallable) : Request :=
  {| req_implementation := implementation; req_returnType := TealType.uint64;
     req_nameStr := None; req_input_types := None |}.

(** [add], then something that is not callable, then [mix]. *)
Definition sample_requests : list Request :=
  [request_of (Function add_fn); request_of (NonCallable "3");
   request_of (Function mix_fn)].

(** [@Subroutine(TealType.bytes, name="sum")]. *)
Definition sum_decorator : Subroutine.t :=
  {| Subroutine.returnType := TealType.bytes; Subroutine.name := Some "sum";
     Subroutine.input_types := None |}.

Definition sum_def : SubroutineDefinition :=
  {| id := 0; input_types := None; by_ref_args := ∅;
     expected_arg_types := [ExprClass; ExprClass]; implementation := add_fn;
     implementationParams := parameters add_fn; returnType := TealType.bytes;
     name := "sum" |}.

(** No definition is known to the implementations. *)
Definition no_definitions : nat -> option SubroutineDefinition := λ _, None.

(** How deep compilations may nest in the sample runs. *)
Definition recursion_limit : nat := 100.

(** A function that asks for its own declaration while it is invoked:
    [def again(): ...] returns [Int(1)] once the slot counter has reached 300;
    before that it moves the counter to 300, calls [again.type_of()] and
    returns [Int(2)]. *)
Definition again_fn : HostFunction :=
  {| fn_name := "again"; has_name := true;
     parameters := [];
     annotations := ∅;
     call := λ api _ w,
       if decide (300 ≤ nextSlotId w)%nat then (ret (PyExpr (Int 1)), w)
       else
         match request_declaration api 9 (set_nextSlotId 300 w) with
         | (inl e, w) => (inl e, w)
         | (inr _, w) => (ret (PyExpr (Int 2)), w)
         end |}.

Definition again_def : SubroutineDefinition := definition_of 9 again_fn [] ∅.

Definition again_registry : nat -> option SubroutineDefinition :=
  λ i, if decide (i = 9) then Some again_def else None.

(** A dynamic variable, as a by-reference parameter hands one to a body,
    and a call that passes it on: [mix(Int(1), x, Int(2))]. *)
Definition handed_on : DynamicScratchVar :=
  {| dyn_slot := {| slot_id := 5 |}; dynamic_type := TealType.anytype |}.

Definition forwarding_call : SubroutineCall :=
  {| subroutine := mix_def;
     args := [PyExpr (Int 1); PyDynamicScratchVar handed_on; PyExpr (Int 2)] |}.

(** [functools.partial(add)]: the signature of [add], no [__name__]. *)
Definition partial_add : HostFunction :=
  {| fn_name := ""; has_name := false;
     parameters := parameters add_fn;
     annotations := ∅;
     call := call add_fn |}.

(** [def f(a=Int(1))]: comparing the default with [Parameter.empty] raises. *)
Definition expr_default_fn : HostFunction :=
  {| fn_name := "f"; has_name := true;
     parameters := [("a", {| kind := POSITIONAL_OR_KEYWORD;
                             param_default := Default (inl (PyException "AttributeError")) |})];
     annotations := ∅;
     call := λ _ _ w, (ret (PyExpr (Int 1)), w) |}.

(** ** Properties *)

(** *** The constructor builds the sample definitions *)

Example init_add Expr_type_of :
  fst (SubroutineDefinition_init Expr_type_of (Function add_fn)
         TealType.uint64 None None world0) = inr add_def.
Proof. reflexivity. Qed.

Example init_mix Expr_type_of :
  fst (SubroutineDefinition_init Expr_type_of (Function mix_fn)
         TealType.uint64 None None world0) = inr mix_def.
Proof. reflexivity. Qed.

Example init_one Expr_type_of :
  fst (SubroutineDefinition_init Expr_type_of (Function one_fn)
         TealType.uint64 None None world0) = inr one_def.
Proof. reflexivity. Qed.

Example init_answer Expr_type_of :
  fst (SubroutineDefinition_init Expr_type_of (Function answer_fn)
         TealType.uint64 None None world0) = inr answer_def.
Proof. reflexivity. Qed.

Example init_nothing Expr_type_of :
  fst (SubroutineDefinition_init Expr_type_of (Function nothing_fn)
         TealType.uint64 None None world0) = inr nothing_def.
Proof. reflexivity. Qed.

(** A definition whose implementation returns no expression: every request
    for its declaration runs the implementation again and fails again. *)
Example nothing_never_cached :
  (getDeclaration_times 2 recursion_limit no_definitions nothing_def world0).1
  = [inl (TealInputError BodyNotExpr); inl (TealInputError BodyNotExpr)]
  ∧ times_invoked (id nothing_def)
      (getDeclaration_times 2 recursion_limit no_definitions nothing_def world0).2 = 2.
Proof. split; reflexivity. Qed.

(** *** Allocation of the argument variables *)

Lemma set_nextSlotId_twice a b w :
  set_nextSlotId a (set_nextSlotId b w) = set_nextSlotId a w.
Proof. reflexivity. Qed.

Lemma set_nextSlotId_same w : set_nextSlotId (nextSlotId w) w = w.
Proof. by destruct w. Qed.

Lemma var_n_loaded_at subroutine param w :
  var_n_loaded subroutine param w =
  (let var := argumentVar_at subroutine (nextSlotId w) 0 param in (var, exposed var),
   set_nextSlotId (nextSlotId w + 1) w).
Proof.
  unfold var_n_loaded, argumentVar_at.
  rewrite Nat.add_0_r.
  by case_decide.
Qed.

Lemma map_var_n_loaded_at subroutine params w :
  map_var_n_loaded subroutine params w =
  ((λ var, (var, exposed var)) <$> imap (argumentVar_at subroutine (nextSlotId w)) params,
   set_nextSlotId (nextSlotId w + length params) w).
Proof.
  revert w. induction params as [|param rest IH]; intros w; simpl.
  - by rewrite Nat.add_0_r, set_nextSlotId_same.
  - rewrite var_n_loaded_at, IH. simpl.
    rewrite set_nextSlotId_twice. f_equal.
    + f_equal. f_equal. apply imap_ext. intros i x _.
      unfold argumentVar_at. simpl.
      by replace (nextSlotId w + 1 + i) with (nextSlotId w + S i) by lia.
    + f_equal. lia.
Qed.

Lemma argumentVars_from_length subroutine first :
  length (argumentVars_from subroutine first) = argumentCount subroutine.
Proof.
  unfold argumentVars_from, arguments, argumentCount.
  by rewrite length_imap, length_fmap.
Qed.

Lemma argumentVar_at_slot subroutine first i param :
  ArgVar_slot (argumentVar_at subroutine first i param) = {| slot_id := first + i |}.
Proof. unfold argumentVar_at. by case_decide. Qed.

Lemma prologue_stores subroutine first :
  (λ var, ScratchSlot_store (ArgVar_slot var)) <$> reverse (argumentVars_from subroutine first)
  = store_of_param first <$> reverse (seq 0 (argumentCount subroutine)).
Proof.
  rewrite !fmap_reverse. f_equal.
  unfold argumentVars_from, argumentCount, arguments.
  rewrite fmap_imap, <- (length_fmap fst (implementationParams subroutine)).
  rewrite <- imap_seq_0. apply imap_ext. intros i param _. simpl.
  by rewrite argumentVar_at_slot.
Qed.

Lemma Seq_check_stores i (stores : list Expr) authored :
  Forall (λ e, type_of e = TealType.none) stores →
  Seq_check i (stores ++ [authored]) = ret tt.
Proof.
  intros Hall. revert i.
  induction Hall as [|e rest He _ IH]; intros i; [done|].
  change ((e :: rest) ++ [authored]) with (e :: (rest ++ [authored])).
  destruct (rest ++ [authored]) as [|e' tail] eqn:Hrest.
  - by destruct rest.
  - simpl. rewrite decide_True by done. apply IH.
Qed.

Lemma Seq_new_prologue first (positions : list nat) authored :
  Seq_new ((store_of_param first <$> positions) ++ [authored])
  = ret (Seq ((store_of_param first <$> positions) ++ [authored])).
Proof.
  unfold Seq_new. rewrite Seq_check_stores; [done|].
  apply Forall_fmap, Forall_true. done.
Qed.

(** *** evaluateSubroutine in closed form *)

Lemma paired_vars (vars : list ArgVar) :
  ((λ var, (var, exposed var)) <$> vars).*1 = vars.
Proof. induction vars as [|var rest IH]; [done|]. simpl. by f_equal. Qed.

Lemma paired_exposed (vars : list ArgVar) :
  ((λ var, (var, exposed var)) <$> vars).*2 = exposed <$> vars.
Proof. induction vars as [|var rest IH]; [done|]. simpl. by f_equal. Qed.

Lemma evaluateSubroutine_eq api subroutine w :
  evaluateSubroutine api subroutine w =
  let first := nextSlotId w in
  let (result, w1) :=
    call (implementation subroutine) api
         (exposed <$> argumentVars_from subroutine first) (entered subroutine w) in
  match result with
  | inl e => (inl e, w1)
  | inr (PyExpr authored) =>
      (inr {| oid := nextObjectId w1; decl_subroutine := subroutine;
              body := Seq (prologue subroutine first ++ [authored]) |},
       set_nextObjectId (nextObjectId w1 + 1) w1)
  | inr _ => (inl (TealInputError BodyNotExpr), w1)
  end.
Proof.
  unfold evaluateSubroutine. rewrite map_var_n_loaded_at. cbv zeta.
  rewrite paired_vars, paired_exposed.
  replace (length (arguments subroutine)) with (argumentCount subroutine)
    by (unfold arguments, argumentCount; by rewrite length_fmap).
  fold (argumentVars_from subroutine (nextSlotId w)).
  fold (entered subroutine w).
  destruct (call _ _ _ _) as [[e|[authored|v|v|r]] w1]; try done.
  rewrite prologue_stores. fold (prologue subroutine (nextSlotId w)).
  unfold prologue. by rewrite Seq_new_prologue.
Qed.

Lemma prologue_length subroutine first :
  length (prologue subroutine first) = argumentCount subroutine.
Proof. unfold prologue. by rewrite length_fmap, length_reverse, length_seq. Qed.

Lemma prologue_lookup subroutine first i :
  i < argumentCount subroutine →
  prologue subroutine first !! i
  = Some (store_of_param first (argumentCount subroutine - 1 - i)).
Proof.
  intros Hi. unfold prologue.
  rewrite list_lookup_fmap, reverse_lookup by (by rewrite length_seq).
  rewrite length_seq, lookup_seq_lt by lia. simpl.
  do 2 f_equal. lia.
Qed.

(** *** The prologue (C1) and the parameterless case (C5) *)

(** C1: when the host implementation, handed the exposed handles of the
    freshly allocated slots in declaration order, returns the authored body
    (whatever it asked of the module meanwhile),
    the declaration's body is a sequence made of exactly n stores followed by
    the authored body; the store at position i is the one of the slot
    allocated for parameter p(n-1-i), so the slot of the last parameter is
    stored first and the slot of p0 last.  With three parameters the
    prologue stores p2, p1, p0 in this order. *)
Theorem evaluateSubroutine_prologue_reversed
    (api : Api) (subroutine : SubroutineDefinition) (w w2 : World) (authored : Expr) :
  let first := nextSlotId w in
  let n := argumentCount subroutine in
  call (implementation subroutine) api (exposed <$> argumentVars_from subroutine first)
       (entered subroutine w) = (inr (PyExpr authored), w2) →
  ∃ decl w',
    evaluateSubroutine api subroutine w = (inr decl, w') ∧
    decl_subroutine decl = subroutine ∧
    body decl = Seq (prologue subroutine first ++ [authored]) ∧
    length (prologue subroutine first) = n ∧
    (∀ i, i < n →
          prologue subroutine first !! i = Some (store_of_param first (n - 1 - i))) ∧
    (n = 3 →
     body decl = Seq [store_of_param first 2; store_of_param first 1;
                      store_of_param first 0; authored]).
Proof.
  intros first n Hcall.
  rewrite evaluateSubroutine_eq. cbv zeta.
  unfold first, n in Hcall. rewrite Hcall.
  eexists _, _. split; [reflexivity|]. simpl.
  split; [done|]. split; [done|].
  split; [apply prologue_length|].
  split; [intros i Hi; by apply prologue_lookup|].
  intros Hn. unfold prologue. fold n. by rewrite Hn.
Qed.

Lemma evaluateSubroutine_prologue_reversed_witness :
  call (implementation mix_def) (api_below 0 no_definitions)
       (exposed <$> argumentVars_from mix_def 256) (entered mix_def world0)
  = (inr (PyExpr (Int 7)), entered mix_def world0)
  ∧ ∃ decl w',
      evaluateSubroutine (api_below 0 no_definitions) mix_def world0 = (inr decl, w') ∧
      decl_subroutine decl = mix_def ∧
      body decl = Seq (prologue mix_def 256 ++ [Int 7]) ∧
      length (prologue mix_def 256) = 3 ∧
      (∀ i, i < 3 → prologue mix_def 256 !! i = Some (store_of_param 256 (3 - 1 - i))) ∧
      (3 = 3 →
       body decl = Seq [store_of_param 256 2; store_of_param 256 1;
                        store_of_param 256 0; Int 7]).
Proof.
  split; [reflexivity|].
  exact (evaluateSubroutine_prologue_reversed (api_below 0 no_definitions) mix_def
           world0 (entered mix_def world0) (Int 7) eq_refl).
Defined.

(** C5: with zero parameters the implementation is called with no handle and
    with the slot counter untouched (the state it is entered in differs from
    the initial one by the log entry only), and the declaration's body is the
    sequence whose only element is the authored body: no store precedes it,
    and it lowers to the same instructions and has the same type and return
    flag as the authored body. *)
Theorem evaluateSubroutine_zero_parameters
    (api : Api) (subroutine : SubroutineDefinition) (w w2 : World) (authored : Expr) :
  argumentCount subroutine = 0 →
  call (implementation subroutine) api [] (log_implementation_call (id subroutine) w)
  = (inr (PyExpr authored), w2) →
  ∃ decl w',
    evaluateSubroutine api subroutine w = (inr decl, w') ∧
    body decl = Seq [authored] ∧
    nextSlotId w' = nextSlotId w2 ∧
    (∀ options, SubroutineDeclaration_teal decl options = teal options authored) ∧
    SubroutineDeclaration_type_of decl = type_of authored ∧
    SubroutineDeclaration_has_return decl = has_return authored.
Proof.
  intros Hzero Hcall.
  assert (Hparams : implementationParams subroutine = []).
  { unfold argumentCount in Hzero. by destruct (implementationParams subroutine). }
  rewrite evaluateSubroutine_eq. cbv zeta.
  unfold argumentVars_from, arguments, prologue, entered.
  rewrite Hzero, Hparams. simpl.
  rewrite Nat.add_0_r, set_nextSlotId_same, Hcall.
  eexists _, _. split; [reflexivity|]. simpl.
  repeat split.
  intros options. unfold SubroutineDeclaration_teal. simpl.
  destruct (teal options authored) as [e|code]; simpl; [done|].
  unfold ret. by rewrite app_nil_r.
Qed.

Lemma evaluateSubroutine_zero_parameters_witness :
  argumentCount answer_def = 0
  ∧ call (implementation answer_def) (api_below 0 no_definitions) []
         (log_implementation_call (id answer_def) world0)
    = (inr (PyExpr (Int 42)), log_implementation_call (id answer_def) world0)
  ∧ ∃ decl w',
      evaluateSubroutine (api_below 0 no_definitions) answer_def world0 = (inr decl, w') ∧
      body decl = Seq [Int 42] ∧
      nextSlotId w' = nextSlotId (log_implementation_call (id answer_def) world0) ∧
      (∀ options, SubroutineDeclaration_teal decl options = teal options (Int 42)) ∧
      SubroutineDeclaration_type_of decl = type_of (Int 42) ∧
      SubroutineDeclaration_has_return decl = has_return (Int 42).
Proof.
  split; [reflexivity|]. split; [reflexivity|].
  exact (evaluateSubroutine_zero_parameters (api_below 0 no_definitions) answer_def world0
           (log_implementation_call (id answer_def) world0) (Int 42) eq_refl eq_refl).
Defined.

(** *** The declaration cache (C2) *)

Lemma times_invoked_log i w :
  times_invoked i (log_implementation_call i w) = times_invoked i w + 1.
Proof.
  unfold times_invoked. simpl. rewrite filter_cons_True by done. simpl. lia.
Qed.

Lemma times_invoked_entered self w :
  times_invoked (id self) (entered self w) = times_invoked (id self) w + 1.
Proof. apply (times_invoked_log (id self) (set_nextSlotId _ w)). Qed.

Lemma declaration_of_cache_of self decl :
  decl_subroutine decl = self → declaration_of self (cache_of decl) = decl.
Proof. intros <-. by destruct decl. Qed.

Lemma getDeclaration_cached depth registry self w cached :
  declarations w !! id self = Some cached →
  getDeclaration depth registry self w = (inr (declaration_of self cached), w).
Proof. intros Hcached. destruct depth; simpl; by rewrite Hcached. Qed.

Lemma getDeclaration_times_cached n depth registry self w cached :
  declarations w !! id self = Some cached →
  getDeclaration_times n depth registry self w
  = (replicate n (inr (declaration_of self cached)), w).
Proof.
  intros Hcached. induction n as [|n IH]; simpl; [done|].
  by rewrite (getDeclaration_cached _ _ _ _ _ Hcached), IH.
Qed.

(** A request on a definition that holds no declaration, in closed form:
    the implementation is called once, on the handles of the fresh slots and
    in the state [entered]; what is stored and returned is built from what
    that call returned and from the state it left. *)
Lemma getDeclaration_miss depth registry self w :
  declarations w !! id self = None →
  getDeclaration (S depth) registry self w =
  let first := nextSlotId w in
  let (result, w2) :=
    call (implementation self) (api_below depth registry)
         (exposed <$> argumentVars_from self first) (entered self w) in
  match result with
  | inl e => (inl e, w2)
  | inr (PyExpr authored) =>
      let decl := {| oid := nextObjectId w2; decl_subroutine := self;
                     body := Seq (prologue self first ++ [authored]) |} in
      (inr decl,
       set_declarations (<[id self := cache_of decl]> (declarations w2))
         (set_nextObjectId (nextObjectId w2 + 1) w2))
  | inr _ => (inl (TealInputError BodyNotExpr), w2)
  end.
Proof.
  intros Hnone. cbn [getDeclaration]. rewrite Hnone.
  fold (api_below depth registry).
  rewrite evaluateSubroutine_eq. cbv zeta.
  by destruct (call _ _ _ _) as [[e|[authored|v|v|r]] w2].
Qed.

(** A request at the recursion limit on a definition that holds no
    declaration does not return. *)
Lemma getDeclaration_limit registry self w :
  declarations w !! id self = None →
  getDeclaration 0 registry self w = (inl (PyException "RecursionError"), w).
Proof. intros Hnone. simpl. by rewrite Hnone. Qed.

(** C2, as the code has it: a request on a definition that holds no
    declaration, when it succeeds, has called the implementation on the
    handles of the fresh slots, has built the declaration from the body that
    call returned and has stored it; from then on every request, in whatever
    state it is made and however many are made in a row, returns that same
    declaration object and changes nothing, so it invokes nothing.  The
    request itself adds one invocation to those the implementation caused
    while it ran: when the implementation did not cause itself to be
    invoked again, it has been invoked exactly once. *)
Theorem getDeclaration_memoized_unless_reentered
    (depth : nat) (registry : nat -> option SubroutineDefinition)
    (self : SubroutineDefinition) (w w' : World) (decl : SubroutineDeclaration) :
  let run := call (implementation self) (api_below depth registry)
               (exposed <$> argumentVars_from self (nextSlotId w)) (entered self w) in
  declarations w !! id self = None →
  getDeclaration (S depth) registry self w = (inr decl, w') →
  (∃ authored,
      run.1 = inr (PyExpr authored)
      ∧ decl = {| oid := nextObjectId run.2; decl_subroutine := self;
                  body := Seq (prologue self (nextSlotId w) ++ [authored]) |})
  ∧ implementation_calls w' = implementation_calls run.2
  ∧ (times_invoked (id self) run.2 = times_invoked (id self) (entered self w) →
     times_invoked (id self) w' = times_invoked (id self) w + 1)
  ∧ declarations w' !! id self = Some (cache_of decl)
  ∧ (∀ n depth' registry',
       getDeclaration_times n depth' registry' self w' = (replicate n (inr decl), w'))
  ∧ (∀ w2 depth' registry',
       declarations w2 !! id self = Some (cache_of decl) →
       getDeclaration depth' registry' self w2 = (inr decl, w2)).
Proof.
  intros run Hnone Hget.
  rewrite (getDeclaration_miss _ _ _ _ Hnone) in Hget. cbv zeta in Hget.
  fold run in Hget.
  destruct run as [[e|[authored|v|v|r]] w2] eqn:Hrun; try done.
  injection Hget as <- <-. cbn [fst snd].
  set (decl := {| oid := nextObjectId w2; decl_subroutine := self;
                  body := Seq (prologue self (nextSlotId w) ++ [authored]) |}).
  assert (Hcached : ∀ w3, declarations w3 !! id self = Some (cache_of decl) →
            ∀ depth' registry',
              getDeclaration depth' registry' self w3 = (inr decl, w3)).
  { intros w3 Hw3 depth' registry'.
    by rewrite (getDeclaration_cached _ _ _ _ _ Hw3). }
  split; [by exists authored|].
  split; [done|].
  split.
  { intros Hsame. rewrite <- times_invoked_entered, <- Hsame. done. }
  split; [apply lookup_insert_eq|].
  split.
  - intros n depth' registry'.
    by rewrite (getDeclaration_times_cached n depth' registry' self _ (cache_of decl))
      by apply lookup_insert_eq.
  - intros w3 depth' registry' Hw3. by apply Hcached.
Qed.

Lemma getDeclaration_memoized_unless_reentered_witness :
  declarations world0 !! id add_def = None
  ∧ ∃ decl w',
      getDeclaration 1 no_definitions add_def world0 = (inr decl, w')
      ∧ times_invoked (id add_def) w' = 1
      ∧ declarations w' !! id add_def = Some (cache_of decl)
      ∧ ∀ n depth' registry',
          getDeclaration_times n depth' registry' add_def w' = (replicate n (inr decl), w').
Proof.
  split; [reflexivity|].
  eexists _, _. split; [vm_compute; reflexivity|].
  pose proof (getDeclaration_memoized_unless_reentered 0 no_definitions add_def world0
                _ _ eq_refl eq_refl) as (_ & _ & Honce & Hcached & Hagain & _).
  split; [exact (Honce eq_refl)|].
  split; [exact Hcached|exact Hagain].
Defined.

(** C2 as stated fails for an implementation that asks for its own
    declaration while it is invoked: the definition holds no declaration
    yet, so the nested request runs the calling convention as well.  One
    request from outside then invokes the implementation twice and builds
    two declaration objects; the nested request was answered with the first,
    the outer one stores and returns the second. *)
Lemma getDeclaration_reentered_invoked_twice :
  declarations world0 !! id again_def = None
  ∧ ∃ decl w' nested w1,
      getDeclaration recursion_limit again_registry again_def world0 = (inr decl, w')
      ∧ times_invoked (id again_def) w' = 2
      ∧ nextObjectId w' = nextObjectId world0 + 2
      ∧ request_declaration (api_below (recursion_limit - 1) again_registry) (id again_def)
          (set_nextSlotId 300 (entered again_def world0)) = (inr nested, w1)
      ∧ cached_oid nested = 0
      ∧ oid decl = 1
      ∧ cached_body nested ≠ body decl.
Proof.
  split; [reflexivity|].
  eexists _, _, _, _.
  split; [vm_compute; reflexivity|].
  split; [reflexivity|]. split; [reflexivity|].
  split; [vm_compute; reflexivity|].
  split; [reflexivity|]. split; [reflexivity|].
  simpl. intros [= Habsurd].
  discriminate (f_equal (λ lower : CompileOptions → Res (list TealOp), lower v4) Habsurd).
Qed.
(** *** Lowering a call (C3, C9) *)

Section CallLowering.
Context (callsub_min_version : nat) (options : CompileOptions).

Lemma handle_arg_pushes arg code :
  PyValue_teal options (handle_arg arg) = inr code ↔ pushes options arg code.
Proof.
  destruct arg as [e|v|v|r]; simpl; [done| | |].
  - unfold ret. split; [by intros [= <-]|by intros ->].
  - unfold ret. split; [by intros [= <-]|by intros ->].
  - unfold raise. split; [done|by intros []].
Qed.

Lemma FromOp_pushes op args ops :
  FromOp options op (handle_arg <$> args) = inr ops
  ↔ ∃ codes, Forall2 (pushes options) args codes ∧ ops = concat codes ++ [op].
Proof.
  revert ops. induction args as [|arg rest IH]; intros ops.
  - simpl. unfold ret. split.
    + intros [= <-]. exists []. by split; [constructor|].
    + intros (codes & Hall & ->). by inversion Hall.
  - rewrite fmap_cons. cbn [FromOp].
    destruct (PyValue_teal options (handle_arg arg)) as [e|code] eqn:Harg;
      cbn [bind].
    + split; [done|]. intros (codes & Hall & _).
      inversion Hall as [|? code ? codes' Hpush _]; subst.
      apply handle_arg_pushes in Hpush. congruence.
    + destruct (FromOp options op (handle_arg <$> rest)) as [e|cs] eqn:Hrest;
        cbn [bind].
      * split; [done|]. intros (codes & Hall & _).
        inversion Hall as [|? code' ? codes' _ Hall']; subst.
        assert (inl e = inr (concat codes' ++ [op])) as Habsurd; [|done].
        apply IH. by exists codes'.
      * unfold ret. split.
        -- intros [= <-].
           destruct (proj1 (IH cs) eq_refl) as (codes' & Hall' & ->).
           exists (code :: codes'). split.
           ++ constructor; [by apply handle_arg_pushes|done].
           ++ simpl. by rewrite app_assoc.
        -- intros (codes & Hall & ->).
           inversion Hall as [|? code' ? codes' Hpush Hall']; subst.
           apply handle_arg_pushes in Hpush.
           assert (code' = code) as -> by congruence.
           assert ((inr cs : Res (list TealOp)) = inr (concat codes' ++ [op]))
             as [= ->].
           { apply IH. by exists codes'. }
           simpl. by rewrite app_assoc.
Qed.

(** C3: a lowering of a call that succeeds was made at a version at least
    the minimum of the call instruction, and its instructions are one
    contribution per argument, in argument order, followed by exactly one
    call instruction addressed at the definition; conversely, at such a
    version, arguments that each contribute their pushes make the lowering
    succeed with that result.  An argument that is an instance of
    [ScratchVar] contributes what its slot-index accessor lowers to: for a
    plain variable the push of the number of its slot, for a dynamic
    variable the load of its slot, which holds the number of the slot it
    stands for.  Neither is what loading the variable lowers to, so the
    aliased value is not pushed.  An [Expr] argument contributes its own
    lowering. *)
Theorem SubroutineCall_teal_pushes_then_callsub (self : SubroutineCall) :
  (∀ ops,
     SubroutineCall_teal callsub_min_version self options = inr ops →
     (callsub_min_version ≤ version options)%nat
     ∧ ∃ codes,
         Forall2 (pushes options) (args self) codes
         ∧ ops = concat codes
                 ++ [ {| op := Op_callsub;
                         op_args := [ArgSubroutine (id (subroutine self))] |} ])
  ∧ (∀ codes,
       (callsub_min_version ≤ version options)%nat →
       Forall2 (pushes options) (args self) codes →
       SubroutineCall_teal callsub_min_version self options
       = inr (concat codes
              ++ [ {| op := Op_callsub;
                      op_args := [ArgSubroutine (id (subroutine self))] |} ]))
  ∧ (∀ v code,
       pushes options (PyScratchVar v) code →
       code = [ {| op := Op_int; op_args := [ArgSlot (slot v)] |} ]
       ∧ teal options (ScratchVar_index v) = inr code
       ∧ teal options (ScratchVar_load v) ≠ inr code)
  ∧ (∀ v code,
       pushes options (PyDynamicScratchVar v) code →
       code = [ {| op := Op_load; op_args := [ArgSlot (dyn_slot v)] |} ]
       ∧ teal options (DynamicScratchVar_index v) = inr code
       ∧ teal options (DynamicScratchVar_load v) ≠ inr code)
  ∧ (∀ e code, pushes options (PyExpr e) code ↔ teal options e = inr code).
Proof.
  split; [|split; [|split; [|split]]].
  - intros ops. unfold SubroutineCall_teal, verifyTealVersion.
    case_decide as Hversion; [done|]. simpl. intros Hops.
    split; [lia|]. by apply FromOp_pushes.
  - intros codes Hversion Hall. unfold SubroutineCall_teal, verifyTealVersion.
    rewrite decide_False by lia. simpl. apply FromOp_pushes. by exists codes.
  - intros v code ->. split; [done|]. split; [done|]. simpl. unfold ret. by intros [=].
  - intros v code ->. split; [done|]. split; [done|]. simpl. unfold ret. by intros [=].
  - done.
Qed.

(** C9: below the minimum version of the call instruction, lowering a call
    raises the version error; no instruction list is produced, whatever the
    arguments are. *)
Theorem SubroutineCall_teal_version_too_low (self : SubroutineCall) :
  (version options < callsub_min_version)%nat →
  SubroutineCall_teal callsub_min_version self options
  = inl (TealInputError (VersionTooLow callsub_min_version (version options)))
  ∧ ∀ ops, SubroutineCall_teal callsub_min_version self options ≠ inr ops.
Proof.
  intros Hversion. unfold SubroutineCall_teal, verifyTealVersion.
  rewrite decide_True by done. simpl. by split.
Qed.

End CallLowering.

Example mix_call_lowered :
  SubroutineCall_teal 4 mix_call v4
  = inr [ {| op := Op_int; op_args := [ArgInt 1] |};
          {| op := Op_int; op_args := [ArgSlot {| slot_id := 5 |}] |};
          {| op := Op_int; op_args := [ArgInt 2] |};
          {| op := Op_callsub; op_args := [ArgSubroutine 0] |} ].
Proof. reflexivity. Qed.

(** A dynamic variable passed on to another subroutine: the call pushes
    what slot 5 holds. *)
Example forwarding_call_lowered :
  invoke mix_def (args forwarding_call) = inr forwarding_call
  ∧ SubroutineCall_teal 4 forwarding_call v4
    = inr [ {| op := Op_int; op_args := [ArgInt 1] |};
            {| op := Op_load; op_args := [ArgSlot {| slot_id := 5 |}] |};
            {| op := Op_int; op_args := [ArgInt 2] |};
            {| op := Op_callsub; op_args := [ArgSubroutine 0] |} ].
Proof. split; reflexivity. Qed.

Lemma mix_call_pushes :
  Forall2 (pushes v4) (args mix_call)
    [ [ {| op := Op_int; op_args := [ArgInt 1] |} ];
      [ {| op := Op_int; op_args := [ArgSlot {| slot_id := 5 |}] |} ];
      [ {| op := Op_int; op_args := [ArgInt 2] |} ] ].
Proof. repeat constructor. Defined.

Lemma SubroutineCall_teal_pushes_then_callsub_witness :
  (4 ≤ version v4)%nat
  ∧ SubroutineCall_teal 4 mix_call v4
    = inr [ {| op := Op_int; op_args := [ArgInt 1] |};
            {| op := Op_int; op_args := [ArgSlot {| slot_id := 5 |}] |};
            {| op := Op_int; op_args := [ArgInt 2] |};
            {| op := Op_callsub; op_args := [ArgSubroutine 0] |} ].
Proof.
  assert (Hversion : (4 ≤ version v4)%nat) by (simpl; lia).
  split; [exact Hversion|].
  exact (proj1 (proj2 (SubroutineCall_teal_pushes_then_callsub 4 v4 mix_call))
           _ Hversion mix_call_pushes).
Defined.

Lemma SubroutineCall_teal_version_too_low_witness :
  (version v3 < 4)%nat
  ∧ (SubroutineCall_teal 4 mix_call v3 = inl (TealInputError (VersionTooLow 4 (version v3)))
     ∧ ∀ ops, SubroutineCall_teal 4 mix_call v3 ≠ inr ops).
Proof.
  split; [simpl; lia|].
  apply (SubroutineCall_teal_version_too_low 4 v3 mix_call). simpl. lia.
Defined.

(** *** Constructing a call node (C8, C10) *)

Lemma acceptable_arg_type arg :
  acceptable arg ↔ ∃ t, arg_type arg = Some t ∧ t ≠ TealType.none.
Proof.
  destruct arg as [e|v|v|r]; simpl.
  - split; [intros H; by eexists|by intros (t & [= <-] & H)].
  - split; [intros H; by eexists|by intros (t & [= <-] & H)].
  - split; [intros H; by eexists|by intros (t & [= <-] & H)].
  - split; [done|by intros (t & [=] & _)].
Qed.

Lemma check_args_step i arg rest :
  acceptable arg → check_args i (arg :: rest) = check_args (S i) rest.
Proof.
  intros (t & Ht & Hnone)%acceptable_arg_type. simpl. rewrite Ht.
  by rewrite decide_False.
Qed.

Lemma check_args_raises i arg rest :
  ¬ acceptable arg →
  check_args i (arg :: rest)
  = inl (TealInputError (match arg_type arg with
                         | None => UnexpectedArgument i
                         | Some _ => ArgumentEvaluatesToNone i
                         end)).
Proof.
  intros Hbad. simpl. destruct (arg_type arg) as [t|] eqn:Ht; [|done].
  case_decide; [done|]. destruct Hbad. apply acceptable_arg_type. by exists t.
Qed.

Lemma acceptable_dec arg : {acceptable arg} + {¬ acceptable arg}.
Proof.
  destruct arg as [e|v|v|r]; simpl.
  - destruct (decide (type_of e = TealType.none)); [right|left]; tauto.
  - destruct (decide (type v = TealType.none)); [right|left]; tauto.
  - destruct (decide (dynamic_type v = TealType.none)); [right|left]; tauto.
  - right. tauto.
Qed.

Lemma check_args_ok i args : check_args i args = ret tt ↔ Forall acceptable args.
Proof.
  revert i. induction args as [|arg rest IH]; intros i.
  - split; [constructor|done].
  - destruct (acceptable_dec arg) as [Hok|Hbad].
    + rewrite check_args_step, IH by done. split.
      * by constructor.
      * by inversion 1.
    + rewrite check_args_raises by done. split; [done|]. by inversion 1.
Qed.

Lemma check_args_first_bad k args i arg :
  args !! i = Some arg → Forall acceptable (take i args) → ¬ acceptable arg →
  check_args k args
  = inl (TealInputError (match arg_type arg with
                         | None => UnexpectedArgument (k + i)
                         | Some _ => ArgumentEvaluatesToNone (k + i)
                         end)).
Proof.
  revert k i. induction args as [|a rest IH]; intros k i Hi Hbefore Hbad; [done|].
  destruct i as [|i].
  - simpl in Hi. injection Hi as ->. rewrite Nat.add_0_r. by apply check_args_raises.
  - simpl in Hi, Hbefore. inversion Hbefore as [|? ? Ha Hrest]; subst.
    rewrite check_args_step by done.
    replace (k + S i) with (S k + i) by lia. by apply IH.
Qed.

Lemma check_args_outcome i args :
  check_args i args = ret tt ∨ ∃ why, check_args i args = inl (TealInputError why).
Proof.
  revert i. induction args as [|arg rest IH]; intros i; [by left|].
  destruct (acceptable_dec arg) as [Hok|Hbad].
  - rewrite check_args_step by done. apply IH.
  - right. rewrite check_args_raises by done. by eexists.
Qed.

Lemma SubroutineCall_init_ok subroutine args :
  Forall acceptable args →
  SubroutineCall_init subroutine args = inr {| subroutine := subroutine; args := args |}.
Proof.
  intros Hall. unfold SubroutineCall_init.
  by rewrite (proj2 (check_args_ok 0 args) Hall).
Qed.

(** C8: constructing a call node succeeds exactly when every argument is an
    [Expr] or a [ScratchVar] whose static type is not [TealType.none], and then
    the node holds the definition and the arguments; any other argument makes
    the constructor raise a [TealInputError].  The error names the first
    offending position: an argument that is neither an [Expr] nor a
    [ScratchVar] is reported as unexpected, one typed [TealType.none] as
    evaluating to none. *)
Theorem SubroutineCall_init_validates
    (subroutine : SubroutineDefinition) (args : list PyValue) :
  (∀ call, SubroutineCall_init subroutine args = inr call
           ↔ Forall acceptable args
             ∧ call = {| subroutine := subroutine; args := args |})
  ∧ (∀ i arg, args !! i = Some arg → ¬ acceptable arg →
              ∃ why, SubroutineCall_init subroutine args = inl (TealInputError why))
  ∧ (∀ i r, args !! i = Some (PyOther r) → Forall acceptable (take i args) →
            SubroutineCall_init subroutine args
            = inl (TealInputError (UnexpectedArgument i)))
  ∧ (∀ i arg, args !! i = Some arg → arg_type arg = Some TealType.none →
              Forall acceptable (take i args) →
              SubroutineCall_init subroutine args
              = inl (TealInputError (ArgumentEvaluatesToNone i))).
Proof.
  unfold SubroutineCall_init. split; [|split; [|split]].
  - intros call0. split.
    + destruct (check_args 0 args) as [e|[]] eqn:Hcheck; [done|].
      simpl. unfold ret. intros [= <-]. split; [|done].
      by apply (check_args_ok 0).
    + intros [Hall ->]. by rewrite (proj2 (check_args_ok 0 args) Hall).
  - intros i arg Hi Hbad.
    destruct (check_args_outcome 0 args) as [Hok|[why Hwhy]].
    + apply check_args_ok in Hok. destruct Hbad.
      by apply (Forall_lookup_1 _ _ _ _ Hok Hi).
    + exists why. by rewrite Hwhy.
  - intros i r Hi Hbefore.
    by rewrite (check_args_first_bad 0 args i (PyOther r) Hi Hbefore (λ H, H)).
  - intros i arg Hi Htype Hbefore.
    assert (Hbad : ¬ acceptable arg).
    { intros (t & Ht & Hnone)%acceptable_arg_type. congruence. }
    rewrite (check_args_first_bad 0 args i arg Hi Hbefore Hbad). simpl.
    by rewrite Htype.
Qed.

(** *** The kind check of invoke *)

Lemma check_kinds_ok expected k args :
  check_kinds expected k args = ret tt
  ↔ ∀ i arg, args !! i = Some arg →
             ∃ atype, expected !! (k + i) = Some atype ∧ isinstance arg atype = true.
Proof.
  revert k. induction args as [|a rest IH]; intros k; simpl.
  - split; [by intros _ i arg|done].
  - destruct (expected !! k) as [atype|] eqn:Hk.
    + destruct (isinstance a atype) eqn:Ha.
      * rewrite IH. split.
        -- intros Hrest [|i] arg Hi; simpl in Hi.
           ++ injection Hi as <-. rewrite Nat.add_0_r. by exists atype.
           ++ replace (k + S i) with (S k + i) by lia. by apply Hrest.
        -- intros Hall i arg Hi.
           replace (S k + i) with (k + S i) by lia. by apply Hall.
      * split; [done|]. intros Hall.
        destruct (Hall 0 a eq_refl) as (atype' & Hk' & Ha').
        rewrite Nat.add_0_r in Hk'. congruence.
    + split; [done|]. intros Hall.
      destruct (Hall 0 a eq_refl) as (atype' & Hk' & _).
      rewrite Nat.add_0_r in Hk'. congruence.
Qed.

Lemma check_kinds_first_mismatch expected k args i arg atype :
  args !! i = Some arg →
  expected !! (k + i) = Some atype →
  isinstance arg atype = false →
  (∀ j arg', j < i → args !! j = Some arg' →
             ∃ atype', expected !! (k + j) = Some atype' ∧ isinstance arg' atype' = true) →
  check_kinds expected k args = inl (TealInputError (ArgumentKindMismatch (k + i))).
Proof.
  revert k i. induction args as [|a rest IH]; intros k i Hi Hk Hbad Hbefore; [done|].
  destruct i as [|i]; simpl in Hi.
  - injection Hi as ->. rewrite Nat.add_0_r in *. simpl. by rewrite Hk, Hbad.
  - destruct (Hbefore 0 a) as (atype' & Hk' & Ha'); [lia|done|].
    rewrite Nat.add_0_r in Hk'. simpl. rewrite Hk', Ha'.
    replace (k + S i) with (S k + i) in * by lia.
    apply (IH (S k) i Hi Hk Hbad).
    intros j arg' Hj Hlookup.
    replace (S k + j) with (k + S j) by lia.
    apply Hbefore; [lia|done].
Qed.

Lemma check_kinds_match expected args :
  check_kinds expected 0 args = ret tt ↔ kinds_match expected args.
Proof. exact (check_kinds_ok expected 0 args). Qed.

Lemma invoke_eq self args :
  length args = argumentCount self →
  invoke self args =
  (_ <- check_kinds (expected_arg_types self) 0 args ;; SubroutineCall_init self args).
Proof. intros Hlen. unfold invoke. by rewrite decide_False by (by intros []). Qed.

Lemma invoke_wrong_count self args :
  length args ≠ argumentCount self →
  invoke self args
  = inl (TealInputError (IncorrectArgumentCount (argumentCount self) (length args))).
Proof. intros Hlen. unfold invoke. by rewrite decide_True. Qed.

Lemma invoke_returns self args call :
  invoke self args = inr call →
  length args = argumentCount self
  ∧ kinds_match (expected_arg_types self) args
  ∧ Forall acceptable args
  ∧ call = {| subroutine := self; args := args |}.
Proof.
  destruct (decide (length args = argumentCount self)) as [Hlen|Hlen].
  - rewrite invoke_eq by done.
    destruct (check_kinds (expected_arg_types self) 0 args) as [e|[]] eqn:Hkinds; [done|].
    simpl. unfold SubroutineCall_init.
    destruct (check_args 0 args) as [e|[]] eqn:Hargs; [done|].
    simpl. unfold ret. intros [= <-].
    split; [done|]. split; [by apply check_kinds_match|].
    split; [by apply (check_args_ok 0)|done].
  - by rewrite invoke_wrong_count.
Qed.

(** C10: constructing a call node directly succeeds for every definition
    and every list of arguments that are each an [Expr] or [ScratchVar] not
    typed [TealType.none], whatever the length of the list and whatever the
    classes the definition expects; the arity and kind requirements are
    imposed by [invoke], which returns a node only when both hold. *)
Theorem SubroutineCall_init_no_arity_or_kind_check
    (subroutine : SubroutineDefinition) (args : list PyValue) :
  Forall acceptable args →
  SubroutineCall_init subroutine args = inr {| subroutine := subroutine; args := args |}
  ∧ (∀ call, invoke subroutine args = inr call →
             length args = argumentCount subroutine
             ∧ kinds_match (expected_arg_types subroutine) args).
Proof.
  intros Hall. split; [by apply SubroutineCall_init_ok|].
  intros call Hinvoke. apply invoke_returns in Hinvoke. tauto.
Qed.

Example invoke_one_with_two_arguments :
  invoke one_def [PyScratchVar caller_var; PyExpr (Int 1)]
  = inl (TealInputError (IncorrectArgumentCount 1 2)).
Proof. reflexivity. Qed.

Example invoke_one_with_a_variable :
  invoke one_def [PyScratchVar caller_var]
  = inl (TealInputError (ArgumentKindMismatch 0)).
Proof. reflexivity. Qed.

Lemma SubroutineCall_init_no_arity_or_kind_check_witness :
  Forall acceptable [PyScratchVar caller_var; PyExpr (Int 1)]
  ∧ SubroutineCall_init one_def [PyScratchVar caller_var; PyExpr (Int 1)]
    = inr {| subroutine := one_def; args := [PyScratchVar caller_var; PyExpr (Int 1)] |}
  ∧ (∀ call, invoke one_def [PyScratchVar caller_var; PyExpr (Int 1)] = inr call →
             length [PyScratchVar caller_var; PyExpr (Int 1)] = argumentCount one_def
             ∧ kinds_match (expected_arg_types one_def)
                 [PyScratchVar caller_var; PyExpr (Int 1)]).
Proof.
  assert (Hall : Forall acceptable [PyScratchVar caller_var; PyExpr (Int 1)]).
  { repeat constructor; simpl; discriminate. }
  split; [exact Hall|].
  exact (SubroutineCall_init_no_arity_or_kind_check one_def _ Hall).
Defined.

(** *** invoke: arity (C6) and kinds (C7) *)

Lemma kinds_match_acceptable expected args :
  kinds_match expected args → none_typed_free args → Forall acceptable args.
Proof.
  intros Hkinds Hnone. apply Forall_lookup_2. intros i arg Hi.
  destruct (Hkinds i arg Hi) as (atype & _ & Hinstance).
  specialize (Hnone i arg Hi).
  destruct arg as [e|v|v|r]; simpl in *.
  - congruence.
  - congruence.
  - congruence.
  - by destruct atype.
Qed.

(** C6 as the code has it: an argument list whose length differs from the
    parameter count makes [invoke] raise the arity error, so no call node is
    built; when the length is the parameter count, every argument passes the
    kind check and no argument is statically typed [TealType.none], [invoke]
    returns the call node holding the definition and exactly those arguments
    in order. *)
Theorem invoke_arity_then_kinds (self : SubroutineDefinition) (args : list PyValue) :
  (length args ≠ argumentCount self →
   invoke self args
   = inl (TealInputError (IncorrectArgumentCount (argumentCount self) (length args))))
  ∧ (length args = argumentCount self →
     kinds_match (expected_arg_types self) args →
     none_typed_free args →
     invoke self args = inr {| subroutine := self; args := args |}).
Proof.
  split; [apply invoke_wrong_count|].
  intros Hlen Hkinds Hnone. rewrite invoke_eq by done.
  rewrite (proj2 (check_kinds_match _ _) Hkinds). simpl.
  apply SubroutineCall_init_ok. by apply kinds_match_acceptable with (expected_arg_types self).
Qed.

Lemma add_arguments_kinds_match :
  kinds_match (expected_arg_types add_def) [PyExpr (Int 1); PyExpr (Int 2)].
Proof. by apply check_kinds_match. Defined.

Lemma add_arguments_none_typed_free : none_typed_free [PyExpr (Int 1); PyExpr (Int 2)].
Proof.
  intros [|[|i]] arg Hi; simpl in Hi; try discriminate;
    injection Hi as <-; simpl; discriminate.
Defined.

Lemma invoke_arity_then_kinds_witness :
  length [PyExpr (Int 1); PyExpr (Int 2)] = argumentCount add_def
  ∧ kinds_match (expected_arg_types add_def) [PyExpr (Int 1); PyExpr (Int 2)]
  ∧ none_typed_free [PyExpr (Int 1); PyExpr (Int 2)]
  ∧ invoke add_def [PyExpr (Int 1); PyExpr (Int 2)]
    = inr {| subroutine := add_def; args := [PyExpr (Int 1); PyExpr (Int 2)] |}.
Proof.
  split; [reflexivity|].
  split; [exact add_arguments_kinds_match|].
  split; [exact add_arguments_none_typed_free|].
  exact (proj2 (invoke_arity_then_kinds add_def [PyExpr (Int 1); PyExpr (Int 2)])
           eq_refl add_arguments_kinds_match add_arguments_none_typed_free).
Defined.

(** C6 as first stated fails: [Pop(Int(1))] is an [Expr], so it passes the
    kind check of the one-parameter definition, and the count is right, yet
    [invoke] raises because the argument is typed [TealType.none]. *)
Lemma invoke_none_typed_argument_rejected :
  length [PyExpr (Pop (Int 1))] = argumentCount one_def
  ∧ kinds_match (expected_arg_types one_def) [PyExpr (Pop (Int 1))]
  ∧ invoke one_def [PyExpr (Pop (Int 1))]
    = inl (TealInputError (ArgumentEvaluatesToNone 0)).
Proof.
  split; [reflexivity|]. split; [|reflexivity].
  by apply check_kinds_match.
Qed.

(** C7 as the code has it: an argument at position i that is not an instance
    of the class expected there makes [invoke] raise; when the count is right
    and the arguments before i pass the kind check, so that i is the first
    offending position, the error is the one naming index i.  An [Expr] is
    never an instance of [ScratchVar] and a [ScratchVar] never an instance of
    [Expr], so a by-reference parameter rejects a value expression and a
    by-value parameter rejects a reference variable. *)
Theorem invoke_rejects_kind_mismatch
    (self : SubroutineDefinition) (args : list PyValue)
    (i : nat) (arg : PyValue) (atype : ArgClass) :
  args !! i = Some arg →
  expected_arg_types self !! i = Some atype →
  isinstance arg atype = false →
  (∃ e, invoke self args = inl e)
  ∧ (length args = argumentCount self →
     kinds_match_before (expected_arg_types self) args i →
     invoke self args = inl (TealInputError (ArgumentKindMismatch i)))
  ∧ (∀ e, isinstance (PyExpr e) ScratchVarClass = false)
  ∧ (∀ v, isinstance (PyScratchVar v) ExprClass = false).
Proof.
  intros Hi Hexpected Hbad. split; [|split; [|by split]].
  - destruct (invoke self args) as [e|call] eqn:Hinvoke; [by exists e|].
    apply invoke_returns in Hinvoke as (_ & Hkinds & _).
    destruct (Hkinds i arg Hi) as (atype' & Hexpected' & Hok). congruence.
  - intros Hlen Hbefore. rewrite invoke_eq by done.
    by rewrite (check_kinds_first_mismatch _ 0 args i arg atype Hi Hexpected Hbad Hbefore).
Qed.

Lemma invoke_rejects_kind_mismatch_witness :
  [PyExpr (Int 1); PyExpr (Int 2); PyExpr (Int 3)] !! 1 = Some (PyExpr (Int 2))
  ∧ expected_arg_types mix_def !! 1 = Some ScratchVarClass
  ∧ isinstance (PyExpr (Int 2)) ScratchVarClass = false
  ∧ (∃ e, invoke mix_def [PyExpr (Int 1); PyExpr (Int 2); PyExpr (Int 3)] = inl e)
  ∧ (length [PyExpr (Int 1); PyExpr (Int 2); PyExpr (Int 3)] = argumentCount mix_def →
     kinds_match_before (expected_arg_types mix_def)
       [PyExpr (Int 1); PyExpr (Int 2); PyExpr (Int 3)] 1 →
     invoke mix_def [PyExpr (Int 1); PyExpr (Int 2); PyExpr (Int 3)]
     = inl (TealInputError (ArgumentKindMismatch 1)))
  ∧ (∀ e, isinstance (PyExpr e) ScratchVarClass = false)
  ∧ (∀ v, isinstance (PyScratchVar v) ExprClass = false).
Proof.
  split; [reflexivity|]. split; [reflexivity|]. split; [reflexivity|].
  exact (invoke_rejects_kind_mismatch mix_def
           [PyExpr (Int 1); PyExpr (Int 2); PyExpr (Int 3)] 1 (PyExpr (Int 2))
           ScratchVarClass eq_refl eq_refl eq_refl).
Defined.

(** C7 as first stated fails: with a reference variable passed for the
    by-value [p0] and a value expression passed for the by-reference [p1],
    the argument at position 1 mismatches, but the error names index 0, the
    first offending position. *)
Lemma invoke_names_first_mismatch :
  [PyScratchVar caller_var; PyExpr (Int 2); PyExpr (Int 3)] !! 1 = Some (PyExpr (Int 2))
  ∧ expected_arg_types mix_def !! 1 = Some ScratchVarClass
  ∧ isinstance (PyExpr (Int 2)) ScratchVarClass = false
  ∧ invoke mix_def [PyScratchVar caller_var; PyExpr (Int 2); PyExpr (Int 3)]
    = inl (TealInputError (ArgumentKindMismatch 0))
  ∧ invoke mix_def [PyScratchVar caller_var; PyExpr (Int 2); PyExpr (Int 3)]
    ≠ inl (TealInputError (ArgumentKindMismatch 1)).
Proof. repeat split. discriminate. Qed.

Example invoke_mix_with_an_expression :
  invoke mix_def [PyExpr (Int 1); PyExpr (Int 2); PyExpr (Int 3)]
  = inl (TealInputError (ArgumentKindMismatch 1)).
Proof. reflexivity. Qed.

(** *** The constructor and the declared input types (C4) *)

Lemma check_parameter_ignores_input_types
    Expr_type_of input_types annotations i name param :
  check_parameter Expr_type_of input_types annotations i name param
  = check_parameter Expr_type_of None annotations i name param.
Proof.
  unfold check_parameter.
  by destruct (positional (kind param)), (param_default param) as [|[e|[]]].
Qed.

Lemma check_parameters_ignore_input_types
    Expr_type_of input_types annotations i sig_params expected by_ref :
  check_parameters Expr_type_of input_types annotations i sig_params expected by_ref
  = check_parameters Expr_type_of None annotations i sig_params expected by_ref.
Proof.
  revert i expected by_ref.
  induction sig_params as [|[name param] rest IH]; intros i expected by_ref; simpl; [done|].
  rewrite check_parameter_ignores_input_types.
  destruct (check_parameter _ None _ _ _ _) as [e|atype]; simpl; [done|apply IH].
Qed.

(** C4 does not hold of the code.  For [def one(a: Expr)] and a declared
    input type [t], whatever [Expr.type_of()] yields, the constructor returns
    a definition; yet the validator, had it been handed [t], raises as soon
    as [Expr.type_of()] is not exactly [t].  The loop sets [input_type] to
    [None] and only reads [input_types[i]] if [input_type] is already true, so
    the validator never sees a declared type: the outcome of each loop
    iteration is the one obtained with no [input_types] at all. *)
Theorem init_never_sees_input_types
    (Expr_type_of : Res TealType.t) (t : TealType.t) (w : World) :
  fst (SubroutineDefinition_init Expr_type_of (Function one_fn) TealType.uint64
         None (Some [t]) w)
  = inr {| id := nextSubroutineId w; input_types := Some [t]; by_ref_args := ∅;
           expected_arg_types := [ExprClass]; implementation := one_fn;
           implementationParams := parameters one_fn;
           returnType := TealType.uint64; name := "one" |}
  ∧ (Expr_type_of ≠ inr t →
     ∃ e, _validate_parameter_type Expr_type_of (annotations one_fn) "a" (Some t) = inl e)
  ∧ (∀ input_types annotations i sig_params expected by_ref,
       check_parameters Expr_type_of input_types annotations i sig_params expected by_ref
       = check_parameters Expr_type_of None annotations i sig_params expected by_ref).
Proof.
  split; [reflexivity|]. split; [|intros; apply check_parameters_ignore_input_types].
  intros Hcontradicts.
  change (_validate_parameter_type Expr_type_of (annotations one_fn) "a" (Some t))
    with (t' <- Expr_type_of ;;
          if decide (t' ≠ t)
          then raise (TealInputError (ContradictoryInputType "a"))
          else ret ExprClass).
  destruct Expr_type_of as [e|t']; simpl; [by exists e|].
  case_decide; [by eexists|]. destruct Hcontradicts. f_equal.
  by destruct (decide (t' = t)).
Qed.

Example init_one_declared_bytes :
  fst (SubroutineDefinition_init (ret TealType.uint64) (Function one_fn) TealType.uint64
         None (Some [TealType.bytes]) world0)
  = inr {| id := 0; input_types := Some [TealType.bytes]; by_ref_args := ∅;
           expected_arg_types := [ExprClass]; implementation := one_fn;
           implementationParams := parameters one_fn;
           returnType := TealType.uint64; name := "one" |}
  ∧ _validate_parameter_type (ret TealType.uint64) (annotations one_fn) "a"
      (Some TealType.bytes)
    = inl (TealInputError (ContradictoryInputType "a")).
Proof. split; reflexivity. Qed.

(** *** What the constructor records *)

Section Constructed.
Context (Expr_type_of : Res TealType.t).

Lemma check_parameter_returns input_types annotations i name param atype :
  check_parameter Expr_type_of input_types annotations i name param = inr atype →
  atype = annotated_class annotations name.
Proof.
  unfold check_parameter, annotated_class, _validate_parameter_type.
  destruct (positional (kind param)), (param_default param) as [|[e|[]]];
    simpl; try done;
    destruct (dict_get annotations name) as [[[]| | |]|]; simpl; unfold ret;
    by intros [= <-].
Qed.

Lemma check_parameters_returns input_types annotations i sig_params expected by_ref r :
  check_parameters Expr_type_of input_types annotations i sig_params expected by_ref
  = inr r →
  r.1 = expected ++ (annotated_class annotations <$> sig_params.*1)
  ∧ ∀ name, name ∈ r.2
            ↔ name ∈ by_ref
              ∨ (name ∈ sig_params.*1
                 ∧ annotated_class annotations name = ScratchVarClass).
Proof.
  revert i expected by_ref.
  induction sig_params as [|[name param] rest IH]; intros i expected by_ref; simpl.
  - unfold ret. intros [= <-]. simpl. rewrite app_nil_r. split; [done|].
    intros name. set_solver.
  - destruct (check_parameter _ _ _ _ _ _) as [e|atype] eqn:Hparam; simpl; [done|].
    apply check_parameter_returns in Hparam as ->.
    intros [-> Hby_ref]%IH. split; [by rewrite <- app_assoc|].
    intros name'. rewrite Hby_ref.
    destruct (annotated_class annotations name) eqn:Hclass.
    + split; [set_solver|]. intros [?|[[->|?]%elem_of_cons ?]]; [set_solver| |set_solver].
      congruence.
    + split; [|set_solver]. intros [[->%elem_of_singleton|?]%elem_of_union|?]; set_solver.
Qed.

(** A definition the constructor returns takes the next id, records the
    signature of the function, expects at each position the class the
    parameter is declared with, and lists as by-reference exactly the
    parameters declared [ScratchVar]. *)
Lemma SubroutineDefinition_init_returns
    implementation returnType nameStr input_types w self :
  fst (SubroutineDefinition_init Expr_type_of implementation returnType nameStr
         input_types w) = inr self →
  ∃ f, implementation = Function f
       ∧ id self = nextSubroutineId w
       ∧ implementationParams self = parameters f
       ∧ expected_arg_types self
         = annotated_class (annotations f) <$> arguments self
       ∧ length (expected_arg_types self) = argumentCount self
       ∧ ∀ name, name ∈ by_ref_args self
                 ↔ name ∈ arguments self
                   ∧ annotated_class (annotations f) name = ScratchVarClass.
Proof.
  unfold SubroutineDefinition_init.
  destruct (init_attributes _ _ _ _ _) as [e|self'] eqn:Hinit; simpl; [done|].
  intros [= ->]. revert Hinit. unfold init_attributes.
  destruct implementation as [r|e|f]; [done|done|].
  intros Hinit. exists f. split; [done|].
  revert Hinit. destruct (match input_types with Some _ => _ | None => _ end); [done|].
  destruct (match annotations f !! "return" with Some _ => _ | None => _ end); [done|].
  destruct (check_parameters _ _ _ _ _ _ _) as [e|r] eqn:Hloop; simpl; [done|].
  apply check_parameters_returns in Hloop as [Hexpected Hby_ref].
  destruct (match nameStr with Some _ => _ | None => _ end) as [e|name']; simpl; [done|].
  unfold ret. intros [= <-]. unfold arguments, argumentCount. simpl.
  split; [done|]. split; [done|]. split; [done|].
  split; [rewrite Hexpected; simpl; by rewrite !length_fmap|].
  intros name. rewrite Hby_ref. set_solver.
Qed.

End Constructed.

(** *** The constructor: ids, outcomes and errors *)

Section Constructor.
Context (Expr_type_of : Res TealType.t).

Lemma check_parameter_allowed input_types annotations i p :
  parameter_allowed annotations p →
  check_parameter Expr_type_of input_types annotations i p.1 p.2
  = inr (annotated_class annotations p.1).
Proof.
  intros (Hkind & Hdefault & Hann). unfold check_parameter.
  rewrite Hkind. simpl.
  assert (Hnone : match param_default p.2 with
                  | Parameter_empty => ret false
                  | Default differs => differs
                  end = inr false) by (by destruct Hdefault as [-> | ->]).
  rewrite Hnone. simpl.
  unfold _validate_parameter_type, annotated_class.
  by destruct (dict_get annotations p.1) as [[[]| | |]|].
Qed.

Lemma check_parameter_refused input_types annotations i p :
  ¬ parameter_allowed annotations p →
  check_parameter Expr_type_of input_types annotations i p.1 p.2
  = inl (parameter_error annotations p).
Proof.
  intros Hbad. unfold check_parameter, parameter_error.
  destruct (positional (kind p.2)) eqn:Hkind; simpl; [|done].
  destruct (param_default p.2) as [|[e|[]]] eqn:Hdefault; simpl; try done.
  - unfold _validate_parameter_type.
    destruct (dict_get annotations p.1) as [[c| | |]|] eqn:Hann; try done;
      destruct Hbad; unfold parameter_allowed; rewrite Hkind, Hdefault, Hann; tauto.
  - unfold _validate_parameter_type.
    destruct (dict_get annotations p.1) as [[c| | |]|] eqn:Hann; try done;
      destruct Hbad; unfold parameter_allowed; rewrite Hkind, Hdefault, Hann; tauto.
Qed.

Lemma parameter_allowed_dec annotations p :
  {parameter_allowed annotations p} + {¬ parameter_allowed annotations p}.
Proof.
  unfold parameter_allowed.
  destruct (positional (kind p.2)); [|right; by intros (? & _)].
  destruct (param_default p.2) as [|[e|[]]];
    try (right; by intros (_ & [?|?] & _));
    destruct (dict_get annotations p.1) as [[c| | |]|];
    (left; tauto) || (right; by intros (_ & _ & ?)).
Qed.

Lemma check_parameters_allowed input_types annotations i sig_params expected by_ref :
  Forall (parameter_allowed annotations) sig_params →
  ∃ r, check_parameters Expr_type_of input_types annotations i sig_params expected by_ref
       = inr r.
Proof.
  intros Hall. revert i expected by_ref.
  induction Hall as [|[name param] rest Hp _ IH]; intros i expected by_ref; simpl.
  - by eexists.
  - rewrite (check_parameter_allowed _ _ _ (name, param) Hp). simpl. apply IH.
Qed.

Lemma check_parameters_first_refused
    input_types annotations k sig_params expected by_ref i p :
  sig_params !! i = Some p →
  Forall (parameter_allowed annotations) (take i sig_params) →
  ¬ parameter_allowed annotations p →
  check_parameters Expr_type_of input_types annotations k sig_params expected by_ref
  = inl (parameter_error annotations p).
Proof.
  revert k i expected by_ref.
  induction sig_params as [|[name param] rest IH]; intros k i expected by_ref Hi Hbefore Hbad;
    [done|].
  destruct i as [|i]; simpl in Hi.
  - injection Hi as <-. simpl.
    by rewrite (check_parameter_refused _ _ _ (name, param) Hbad).
  - simpl in Hbefore. inversion Hbefore as [|? ? Hp Hrest]; subst. simpl.
    rewrite (check_parameter_allowed _ _ _ (name, param) Hp). simpl.
    by apply (IH _ i).
Qed.

Lemma check_parameters_returned input_types annotations i sig_params expected by_ref r :
  check_parameters Expr_type_of input_types annotations i sig_params expected by_ref
  = inr r →
  Forall (parameter_allowed annotations) sig_params.
Proof.
  revert i expected by_ref.
  induction sig_params as [|[name param] rest IH]; intros i expected by_ref; [by constructor|].
  simpl. destruct (parameter_allowed_dec annotations (name, param)) as [Hp|Hbad].
  - rewrite (check_parameter_allowed _ _ _ (name, param) Hp). simpl.
    intros Hrest%IH. by constructor.
  - by rewrite (check_parameter_refused _ _ _ (name, param) Hbad).
Qed.

(** What a refused parameter raises is a [TealInputError], unless it is what
    comparing its default with [Parameter.empty] raised. *)
Lemma parameter_error_site annotations p :
  (∃ why, parameter_error annotations p = TealInputError why)
  ∨ param_default p.2 = Default (inl (parameter_error annotations p)).
Proof.
  unfold parameter_error.
  destruct (negb (positional (kind p.2))); [left; by eexists|].
  destruct (param_default p.2) as [|[e|[]]]; try (by right);
    left; destruct (dict_get annotations p.1) as [[| | |]|]; by eexists.
Qed.

Lemma check_parameters_raise input_types annotations i sig_params expected by_ref e :
  check_parameters Expr_type_of input_types annotations i sig_params expected by_ref
  = inl e →
  (∃ why, e = TealInputError why)
  ∨ ∃ p, p ∈ sig_params ∧ param_default p.2 = Default (inl e).
Proof.
  revert i expected by_ref.
  induction sig_params as [|[name param] rest IH]; intros i expected by_ref; [done|].
  simpl. destruct (parameter_allowed_dec annotations (name, param)) as [Hp|Hbad].
  - rewrite (check_parameter_allowed _ _ _ (name, param) Hp). simpl.
    intros [?|(p & Hp' & Hdefault)]%IH; [by left|].
    right. exists p. split; [by right|done].
  - rewrite (check_parameter_refused _ _ _ (name, param) Hbad). simpl.
    intros [= <-].
    destruct (parameter_error_site annotations (name, param)) as [?|Hdefault]; [by left|].
    right. exists (name, param). split; [by left|done].
Qed.

Lemma return_allowed_test annotations :
  match annotations !! "return" with
  | Some (AnnClass ExprClass) | None => false
  | Some _ => true
  end = false ↔ return_allowed annotations.
Proof.
  unfold return_allowed.
  destruct (annotations !! "return") as [[[]| | |]|]; naive_solver.
Qed.

Lemma input_types_length_test (input_types : option (list TealType.t)) (n : nat) :
  match input_types with
  | Some l => negb (Nat.eqb (length l) n)
  | None => false
  end = false
  ↔ match input_types with None => True | Some l => length l = n end.
Proof.
  destruct input_types as [l|]; [|done].
  rewrite negb_false_iff. apply Nat.eqb_eq.
Qed.

Lemma init_attributes_constructible self_id implementation returnType nameStr input_types :
  (∃ self, init_attributes Expr_type_of self_id implementation returnType nameStr
             input_types = inr self)
  ↔ constructible implementation nameStr input_types.
Proof.
  unfold init_attributes, constructible. destruct implementation as [r|e|f].
  { split; [by intros [? ?]|done]. }
  { split; [by intros [? ?]|done]. }
  pose proof (input_types_length_test input_types (length (parameters f))) as Hlen.
  pose proof (return_allowed_test (annotations f)) as Hret.
  destruct (match input_types with Some _ => _ | None => _ end).
  { split; [by intros [? ?]|]. intros (Hl & _). apply Hlen in Hl. done. }
  destruct (match annotations f !! "return" with Some _ => _ | None => _ end).
  { split; [by intros [? ?]|]. intros (_ & Hr & _). apply Hret in Hr. done. }
  split.
  - intros [self Hself]. split; [by apply Hlen|]. split; [by apply Hret|].
    destruct (check_parameters _ _ _ _ _ _ _) as [e|r] eqn:Hloop; [done|].
    split; [by apply check_parameters_returned in Hloop|].
    intros ->. simpl in Hself. by destruct (has_name f).
  - intros (_ & _ & Hall & Hname).
    destruct (check_parameters_allowed input_types (annotations f) 0 (parameters f) [] ∅ Hall)
      as [r ->].
    destruct nameStr as [nameStr|]; simpl; [by eexists|].
    rewrite Hname by done. by eexists.
Qed.

(** Where an exception of the constructor comes from: one of its own
    [raise TealInputError] statements, [signature()], the comparison of a
    default with [Parameter.empty], or the read of [__name__]. *)
Lemma init_attributes_raise self_id implementation returnType nameStr input_types e :
  init_attributes Expr_type_of self_id implementation returnType nameStr input_types
  = inl e →
  (∃ why, e = TealInputError why)
  ∨ implementation = Uninspectable e
  ∨ (∃ f p, implementation = Function f ∧ p ∈ parameters f
            ∧ param_default p.2 = Default (inl e))
  ∨ (∃ f, implementation = Function f ∧ nameStr = None ∧ has_name f = false
          ∧ e = PyException "AttributeError").
Proof.
  unfold init_attributes. destruct implementation as [r|e'|f].
  { intros [= <-]. left. by eexists. }
  { intros [= <-]. right. by left. }
  destruct (match input_types with Some _ => _ | None => _ end).
  { intros [= <-]. left. by eexists. }
  destruct (match annotations f !! "return" with Some _ => _ | None => _ end).
  { intros [= <-]. left. by eexists. }
  destruct (check_parameters _ _ _ _ _ _ _) as [e'|r] eqn:Hloop.
  - simpl. intros [= <-].
    apply check_parameters_raise in Hloop as [?|(p & Hp & Hdefault)]; [by left|].
    right. right. left. by exists f, p.
  - simpl. destruct nameStr as [nameStr|]; simpl; [done|].
    destruct (has_name f) eqn:Hname; simpl; [done|].
    intros [= <-]. right. right. right. by exists f.
Qed.

Lemma init_fst implementation returnType nameStr input_types w :
  (SubroutineDefinition_init Expr_type_of implementation returnType nameStr
     input_types w).1
  = init_attributes Expr_type_of (nextSubroutineId w) implementation returnType nameStr
      input_types.
Proof.
  unfold SubroutineDefinition_init. by destruct (init_attributes _ _ _ _ _ _).
Qed.

Lemma init_attributes_id self_id implementation returnType nameStr input_types self :
  init_attributes Expr_type_of self_id implementation returnType nameStr input_types
  = inr self →
  id self = self_id.
Proof.
  unfold init_attributes. destruct implementation as [r|e|f]; [done|done|].
  destruct (match input_types with Some _ => _ | None => _ end); [done|].
  destruct (match annotations f !! "return" with Some _ => _ | None => _ end); [done|].
  destruct (check_parameters _ _ _ _ _ _ _) as [e'|r]; [done|].
  simpl. destruct (match nameStr with Some _ => _ | None => _ end) as [e|name']; [done|].
  simpl. unfold ret. by intros [= <-].
Qed.

Lemma init_snd implementation returnType nameStr input_types w :
  (SubroutineDefinition_init Expr_type_of implementation returnType nameStr
     input_types w).2
  = let w1 := set_nextSubroutineId (nextSubroutineId w + 1) w in
    match init_attributes Expr_type_of (nextSubroutineId w) implementation returnType
            nameStr input_types with
    | inl _ => w1
    | inr _ => set_declarations (delete (nextSubroutineId w) (declarations w)) w1
    end.
Proof.
  unfold SubroutineDefinition_init. by destruct (init_attributes _ _ _ _ _ _).
Qed.

End Constructor.

Section ConstructorProperties.
Context (Expr_type_of : Res TealType.t).

(** X1: every call of the constructor, whether it returns or raises, takes
    one id: the id counter advances by exactly one, and the slot counter, the
    object counter and the log of invocations are left alone.  A call that
    raises leaves every declaration cache as it was; a call that returns
    leaves the new definition uncompiled and the caches of all other ids as
    they were. *)
Theorem init_takes_one_id
    (implementation : PyCallable) (returnType : TealType.t) (nameStr : option string)
    (input_types : option (list TealType.t)) (w : World) :
  let result := SubroutineDefinition_init Expr_type_of implementation returnType
                  nameStr input_types w in
  nextSubroutineId result.2 = nextSubroutineId w + 1
  ∧ nextSlotId result.2 = nextSlotId w
  ∧ nextObjectId result.2 = nextObjectId w
  ∧ implementation_calls result.2 = implementation_calls w
  ∧ (∀ e, result.1 = inl e → declarations result.2 = declarations w)
  ∧ (∀ self, result.1 = inr self →
             id self = nextSubroutineId w
             ∧ declarations result.2 !! id self = None
             ∧ ∀ j, j ≠ id self → declarations result.2 !! j = declarations w !! j).
Proof.
  cbv zeta. unfold SubroutineDefinition_init.
  destruct (init_attributes _ _ _ _ _ _) as [e|self] eqn:Hinit; simpl.
  - repeat split; done.
  - apply init_attributes_id in Hinit.
    do 4 (split; [done|]). split; [done|].
    intros self' [= <-]. rewrite Hinit.
    split; [done|]. split; [apply lookup_delete_eq|].
    intros j Hj. by apply lookup_delete_ne.
Qed.

Lemma init_all_id reqs w i self :
  (init_all Expr_type_of reqs w).1 !! i = Some (inr self) →
  id self = nextSubroutineId w + i.
Proof.
  revert w i. induction reqs as [|req rest IH]; intros w i; [done|].
  simpl.
  pose proof (init_fst Expr_type_of (req_implementation req) (req_returnType req)
                (req_nameStr req) (req_input_types req) w) as Hfst.
  pose proof (init_snd Expr_type_of (req_implementation req) (req_returnType req)
                (req_nameStr req) (req_input_types req) w) as Hsnd.
  destruct (SubroutineDefinition_init _ _ _ _ _ _) as [r w1]. simpl in Hfst, Hsnd.
  assert (Hnext : nextSubroutineId w1 = nextSubroutineId w + 1).
  { rewrite Hsnd. by destruct (init_attributes _ _ _ _ _ _). }
  specialize (IH w1).
  destruct (init_all Expr_type_of rest w1) as [rs w2]. simpl in *.
  destruct i as [|i]; simpl.
  - intros [= ->]. symmetry in Hfst. apply init_attributes_id in Hfst. lia.
  - intros Hi%IH. lia.
Qed.

(** X2: when definitions are constructed one after the other, the one
    returned by the i-th construction has the id counter's starting value
    plus i, whether or not constructions before it raised; so the ids of two
    definitions are in the order of their construction and never equal. *)
Theorem init_all_ids_increase
    (reqs : list Request) (w : World) (i j : nat) (a b : SubroutineDefinition) :
  (init_all Expr_type_of reqs w).1 !! i = Some (inr a) →
  (init_all Expr_type_of reqs w).1 !! j = Some (inr b) →
  id a = nextSubroutineId w + i
  ∧ (i < j → id a < id b)
  ∧ (id a = id b → i = j).
Proof.
  intros Ha%init_all_id Hb%init_all_id. rewrite Ha, Hb.
  split; [done|]. split; lia.
Qed.

(** X3: the constructor returns a definition exactly when the implementation
    is callable and has a signature, the list of input types, if given, is
    as long as the parameter list, the return annotation is absent or
    [Expr], every parameter is positional, has no default that [!=] tells
    from [Parameter.empty] and is annotated with [Expr], with [ScratchVar] or
    not at all, and a name is given or the implementation has a [__name__].
    Neither the entries of the input types nor what [Expr.type_of()] yields
    play a part. *)
Theorem init_returns_iff_constructible
    (implementation : PyCallable) (returnType : TealType.t) (nameStr : option string)
    (input_types : option (list TealType.t)) (w : World) :
  (∃ self, (SubroutineDefinition_init Expr_type_of implementation returnType nameStr
              input_types w).1 = inr self)
  ↔ constructible implementation nameStr input_types.
Proof. rewrite init_fst. apply init_attributes_constructible. Qed.

(** X4: whatever the constructor raises is a [TealInputError] of its own,
    or what the host raised at one of three places: [signature()] on the
    implementation, the comparison of a parameter's default with
    [Parameter.empty], or the read of [__name__] when no name is given.  The
    lookup [input_types[i]] and the call [Expr.type_of()], which could raise
    as well, are never reached. *)
Theorem init_raise_sites
    (implementation : PyCallable) (returnType : TealType.t) (nameStr : option string)
    (input_types : option (list TealType.t)) (w : World) (e : Exception) :
  (SubroutineDefinition_init Expr_type_of implementation returnType nameStr
     input_types w).1 = inl e →
  (∃ why, e = TealInputError why)
  ∨ implementation = Uninspectable e
  ∨ (∃ f p, implementation = Function f ∧ p ∈ parameters f
            ∧ param_default p.2 = Default (inl e))
  ∨ (∃ f, implementation = Function f ∧ nameStr = None ∧ has_name f = false
          ∧ e = PyException "AttributeError").
Proof. rewrite init_fst. apply init_attributes_raise. Qed.

(** X5: the order of the checks of the constructor.  Something that is not
    callable is refused as such; a callable of which [signature()] raises
    lets that exception through.  For a function, a list of input types of
    the wrong length is reported, with both lengths, before anything else;
    then a return annotation other than [Expr]; then the first parameter
    that is not let through, with the error of the first of its defects:
    kind, default (or what comparing the default raised), annotation; and
    last, when no name is given, the missing [__name__]. *)
Theorem init_error_order
    (f : HostFunction) (returnType : TealType.t) (nameStr : option string)
    (input_types : option (list TealType.t)) (w : World) :
  (∀ r, (SubroutineDefinition_init Expr_type_of (NonCallable r) returnType nameStr
           input_types w).1 = inl (TealInputError NotCallable))
  ∧ (∀ e, (SubroutineDefinition_init Expr_type_of (Uninspectable e) returnType nameStr
             input_types w).1 = inl e)
  ∧ (∀ l, input_types = Some l → length l ≠ length (parameters f) →
          (SubroutineDefinition_init Expr_type_of (Function f) returnType nameStr
             input_types w).1
          = inl (TealInputError (InputTypesLength (length l) (length (parameters f)))))
  ∧ (match input_types with None => True | Some l => length l = length (parameters f) end →
     ¬ return_allowed (annotations f) →
     (SubroutineDefinition_init Expr_type_of (Function f) returnType nameStr
        input_types w).1
     = inl (TealInputError DisallowedReturnAnnotation))
  ∧ (∀ i p,
       match input_types with None => True | Some l => length l = length (parameters f) end →
       return_allowed (annotations f) →
       parameters f !! i = Some p →
       Forall (parameter_allowed (annotations f)) (take i (parameters f)) →
       ¬ parameter_allowed (annotations f) p →
       (SubroutineDefinition_init Expr_type_of (Function f) returnType nameStr
          input_types w).1
       = inl (parameter_error (annotations f) p))
  ∧ (match input_types with None => True | Some l => length l = length (parameters f) end →
     return_allowed (annotations f) →
     Forall (parameter_allowed (annotations f)) (parameters f) →
     nameStr = None → has_name f = false →
     (SubroutineDefinition_init Expr_type_of (Function f) returnType nameStr
        input_types w).1
     = inl (PyException "AttributeError")).
Proof.
  split; [|split; [|split; [|split; [|split]]]].
  - intros r. by rewrite init_fst.
  - intros e. by rewrite init_fst.
  - intros l -> Hlen. rewrite init_fst. unfold init_attributes.
    by rewrite (proj2 (Nat.eqb_neq _ _) Hlen).
  - intros Hlen Hret. rewrite init_fst. unfold init_attributes.
    rewrite (proj2 (input_types_length_test _ _) Hlen).
    destruct (match annotations f !! "return" with Some _ => _ | None => _ end) eqn:Htest;
      [done|].
    by apply return_allowed_test in Htest.
  - intros i p Hlen Hret Hi Hbefore Hbad. rewrite init_fst. unfold init_attributes.
    rewrite (proj2 (input_types_length_test _ _) Hlen).
    rewrite (proj2 (return_allowed_test _) Hret).
    by rewrite (check_parameters_first_refused Expr_type_of input_types (annotations f) 0
                  (parameters f) [] ∅ i p Hi Hbefore Hbad).
  - intros Hlen Hret Hall -> Hname. rewrite init_fst. unfold init_attributes.
    rewrite (proj2 (input_types_length_test _ _) Hlen).
    rewrite (proj2 (return_allowed_test _) Hret).
    destruct (check_parameters_allowed Expr_type_of input_types (annotations f) 0
                (parameters f) [] ∅ Hall) as [r ->].
    simpl. by rewrite Hname.
Qed.

(** X6: a definition the constructor returns records the function and its
    signature: its parameters are the function's, in order; the class
    expected at each position is the one the parameter is annotated with,
    [Expr] when it has no annotation; the by-reference set holds exactly the
    parameters annotated [ScratchVar]; its name is the name given, or the
    function's own when none is given; the return type and the input types
    are stored as given. *)
Theorem init_records_signature
    (impl : PyCallable) (returnType' : TealType.t) (nameStr : option string)
    (input_types' : option (list TealType.t)) (w : World) (self : SubroutineDefinition) :
  (SubroutineDefinition_init Expr_type_of impl returnType' nameStr
     input_types' w).1 = inr self →
  ∃ f, impl = Function f
       ∧ implementation self = f
       ∧ arguments self = (parameters f).*1
       ∧ argumentCount self = length (parameters f)
       ∧ expected_arg_types self = annotated_class (annotations f) <$> arguments self
       ∧ (∀ param, param ∈ by_ref_args self
                   ↔ param ∈ arguments self
                     ∧ annotated_class (annotations f) param = ScratchVarClass)
       ∧ name self = default (fn_name f) nameStr
       ∧ returnType self = returnType'
       ∧ input_types self = input_types'.
Proof.
  intros Hinit.
  destruct (SubroutineDefinition_init_returns Expr_type_of _ _ _ _ _ _ Hinit)
    as (f & -> & _ & Hparams & Hexpected & _ & Hby_ref).
  exists f. split; [done|].
  rewrite init_fst in Hinit. unfold init_attributes in Hinit.
  destruct (match input_types' with Some _ => _ | None => _ end); [done|].
  destruct (match annotations f !! "return" with Some _ => _ | None => _ end); [done|].
  destruct (check_parameters _ _ _ _ _ _ _) as [e'|r]; [done|].
  simpl in Hinit.
  assert (Hname : match nameStr with
                  | Some nameStr => (ret nameStr : Res string)
                  | None => if has_name f then ret (fn_name f)
                            else raise (PyException "AttributeError")
                  end = inl (PyException "AttributeError")
                  ∨ match nameStr with
                    | Some nameStr => (ret nameStr : Res string)
                    | None => if has_name f then ret (fn_name f)
                              else raise (PyException "AttributeError")
                    end = inr (default (fn_name f) nameStr)).
  { destruct nameStr as [nameStr|]; [by right|]. destruct (has_name f); [by right|by left]. }
  destruct Hname as [Hname|Hname]; rewrite Hname in Hinit; [done|].
  simpl in Hinit. injection Hinit as <-. simpl in *.
  unfold arguments, argumentCount in *. simpl in *.
  repeat split; try done; by apply Hby_ref.
Qed.

End ConstructorProperties.

(** *** invoke on a constructed definition *)

Lemma check_kinds_outcome expected k args :
  (k + length args ≤ length expected)%nat →
  check_kinds expected k args = ret tt
  ∨ ∃ why, check_kinds expected k args = inl (TealInputError why).
Proof.
  revert k. induction args as [|arg rest IH]; intros k Hlen; [by left|].
  simpl in *. destruct (expected !! k) as [atype|] eqn:Hk.
  - destruct (isinstance arg atype); [apply IH; lia|right; by eexists].
  - apply lookup_ge_None in Hk. lia.
Qed.

Lemma kinds_match_annotated annotations (params : list string) (args : list PyValue) :
  kinds_match (annotated_class annotations <$> params) args
  ↔ ∀ i arg, args !! i = Some arg →
             ∃ param, params !! i = Some param
                      ∧ isinstance arg (annotated_class annotations param) = true.
Proof.
  unfold kinds_match. split; intros Hall i arg Hi.
  - destruct (Hall i arg Hi) as (atype & Hexpected & Hinstance).
    rewrite list_lookup_fmap in Hexpected.
    destruct (params !! i) as [param|]; [|done].
    injection Hexpected as <-. by exists param.
  - destruct (Hall i arg Hi) as (param & Hparam & Hinstance).
    exists (annotated_class annotations param). split; [|done].
    by rewrite list_lookup_fmap, Hparam.
Qed.

(** X7: on a definition the constructor returned for a function, [invoke]
    returns a call node exactly when there are as many arguments as
    parameters, each argument is an instance of the class its parameter is
    annotated with ([Expr] when there is no annotation) and none is typed
    [TealType.none]; the node then holds the definition and the arguments.
    In every other case what [invoke] raises is a [TealInputError]. *)
Theorem invoke_on_constructed
    (Expr_type_of : Res TealType.t) (f : HostFunction) (returnType : TealType.t)
    (nameStr : option string) (input_types : option (list TealType.t)) (w : World)
    (self : SubroutineDefinition) (args : list PyValue) :
  (SubroutineDefinition_init Expr_type_of (Function f) returnType nameStr
     input_types w).1 = inr self →
  (∀ call,
     invoke self args = inr call
     ↔ length args = length (parameters f)
       ∧ (∀ i arg, args !! i = Some arg →
                   ∃ param, (parameters f).*1 !! i = Some param
                            ∧ isinstance arg (annotated_class (annotations f) param) = true)
       ∧ none_typed_free args
       ∧ call = {| subroutine := self; args := args |})
  ∧ (∀ e, invoke self args = inl e → ∃ why, e = TealInputError why).
Proof.
  intros Hinit.
  destruct (SubroutineDefinition_init_returns Expr_type_of _ _ _ _ _ _ Hinit)
    as (f' & [= <-] & _ & Hparams & Hexpected & Hlength & _).
  assert (Hcount : argumentCount self = length (parameters f)).
  { unfold argumentCount. by rewrite Hparams. }
  assert (Hnames : arguments self = (parameters f).*1).
  { unfold arguments. by rewrite Hparams. }
  split.
  - intros call. split.
    + intros (Hlen & Hkinds & Hall & ->)%invoke_returns.
      split; [by rewrite Hlen|]. split.
      * rewrite Hexpected, Hnames in Hkinds. by apply kinds_match_annotated.
      * split; [|done]. intros i arg Hi Htype.
        pose proof (Forall_lookup_1 _ _ _ _ Hall Hi) as Hok.
        apply acceptable_arg_type in Hok as (t & Ht & Hnone). congruence.
    + intros (Hlen & Hkinds & Hnone & ->).
      assert (Hmatch : kinds_match (expected_arg_types self) args).
      { rewrite Hexpected, Hnames. by apply kinds_match_annotated. }
      rewrite invoke_eq by congruence.
      rewrite (proj2 (check_kinds_match _ _) Hmatch). simpl.
      apply SubroutineCall_init_ok.
      by apply kinds_match_acceptable with (expected_arg_types self).
  - intros e. destruct (decide (length args = argumentCount self)) as [Hlen|Hlen].
    + rewrite invoke_eq by done.
      destruct (check_kinds_outcome (expected_arg_types self) 0 args) as [->|[why ->]];
        [simpl; lia| |].
      * simpl. unfold SubroutineCall_init.
        destruct (check_args_outcome 0 args) as [->|[why ->]]; [done|].
        simpl. intros [= <-]. by eexists.
      * simpl. intros [= <-]. by eexists.
    + rewrite invoke_wrong_count by done. intros [= <-]. by eexists.
Qed.

(** *** evaluateSubroutine: allocation, handles and outcomes *)

Lemma loaded_handles_eq subroutine w :
  loaded_handles subroutine w
  = exposed <$> argumentVars_from subroutine (nextSlotId w).
Proof.
  unfold loaded_handles. rewrite map_var_n_loaded_at. simpl.
  by rewrite paired_exposed.
Qed.

Lemma parameter_slots_eq subroutine w :
  parameter_slots subroutine w = seq (nextSlotId w) (argumentCount subroutine).
Proof.
  unfold parameter_slots. rewrite map_var_n_loaded_at. simpl.
  rewrite paired_vars. unfold argumentVars_from, argumentCount, arguments.
  rewrite fmap_imap, <- (length_fmap fst (implementationParams subroutine)).
  generalize ((implementationParams subroutine).*1) as params. intros params.
  generalize (nextSlotId w) as first.
  induction params as [|param rest IH]; intros first; simpl; [done|].
  rewrite argumentVar_at_slot. simpl. rewrite Nat.add_0_r. f_equal.
  rewrite <- (IH (S first)). apply imap_ext. intros i x _. simpl.
  rewrite !argumentVar_at_slot. simpl. f_equal. lia.
Qed.

(** X8: the slots allocated for the parameters are the next n numbers of
    the slot counter, in declaration order, so they are pairwise distinct and
    none was handed out before; allocation moves the slot counter past them
    and changes nothing else. *)
Theorem parameter_slots_fresh (subroutine : SubroutineDefinition) (w : World) :
  let n := argumentCount subroutine in
  let allocated := map_var_n_loaded subroutine (arguments subroutine) w in
  parameter_slots subroutine w = seq (nextSlotId w) n
  ∧ NoDup (parameter_slots subroutine w)
  ∧ (∀ s, s ∈ parameter_slots subroutine w →
          (nextSlotId w ≤ s < nextSlotId allocated.2)%nat)
  ∧ allocated.2 = set_nextSlotId (nextSlotId w + n) w.
Proof.
  cbv zeta. rewrite parameter_slots_eq, map_var_n_loaded_at. simpl.
  replace (length (arguments subroutine)) with (argumentCount subroutine)
    by (unfold arguments, argumentCount; by rewrite length_fmap).
  split; [done|]. split; [apply NoDup_seq|]. split; [|done].
  intros s Hs%elem_of_seq. lia.
Qed.

Lemma loaded_handles_lookup subroutine w i param :
  arguments subroutine !! i = Some param →
  loaded_handles subroutine w !! i
  = Some (exposed (argumentVar_at subroutine (nextSlotId w) i param)).
Proof.
  intros Hi. rewrite loaded_handles_eq. unfold argumentVars_from.
  by rewrite list_lookup_fmap, list_lookup_imap, Hi.
Qed.

(** X9: for a definition the constructor returned, the implementation is
    handed one handle per parameter, in declaration order: for a parameter
    annotated [ScratchVar] a dynamic variable on the parameter's slot, for
    any other parameter the load expression of the parameter's slot, typed
    [TealType.anytype]. *)
Theorem handles_follow_annotations
    (Expr_type_of : Res TealType.t) (f : HostFunction) (returnType : TealType.t)
    (nameStr : option string) (input_types : option (list TealType.t)) (w0 w : World)
    (self : SubroutineDefinition) :
  (SubroutineDefinition_init Expr_type_of (Function f) returnType nameStr
     input_types w0).1 = inr self →
  length (loaded_handles self w) = length (parameters f)
  ∧ ∀ i param, (parameters f).*1 !! i = Some param →
      loaded_handles self w !! i
      = Some (let s := {| slot_id := nextSlotId w + i |} in
              match annotated_class (annotations f) param with
              | ScratchVarClass =>
                  LoadedVar {| dyn_slot := s; dynamic_type := TealType.anytype |}
              | ExprClass => LoadedExpr (ScratchLoad s TealType.anytype)
              end).
Proof.
  intros Hinit.
  destruct (SubroutineDefinition_init_returns Expr_type_of _ _ _ _ _ _ Hinit)
    as (f' & [= <-] & _ & Hparams & _ & _ & Hby_ref).
  assert (Hnames : arguments self = (parameters f).*1).
  { unfold arguments. by rewrite Hparams. }
  split.
  - rewrite loaded_handles_eq, length_fmap, argumentVars_from_length.
    unfold argumentCount. by rewrite Hparams.
  - intros i param Hi. rewrite <- Hnames in Hi.
    rewrite (loaded_handles_lookup self w i param Hi). f_equal.
    unfold argumentVar_at. cbv zeta.
    destruct (annotated_class (annotations f) param) eqn:Hclass.
    + rewrite decide_False; [done|]. intros [_ ?]%Hby_ref. congruence.
    + rewrite decide_True; [done|]. apply Hby_ref. split; [|done].
      by apply list_elem_of_lookup_2 in Hi.
Qed.

(** X10: what [evaluateSubroutine] does around the implementation.  It
    enters the implementation with the slot counter moved past the parameter
    slots and the invocation logged, and nothing else changed.  Whatever the
    implementation then did to the state stays: the slot counter, the log,
    the declarations and the id counter come out as the implementation left
    them.  An exception raised by the implementation comes out unchanged, and
    anything returned that is not an expression gives the [TealInputError]
    for the body; in both cases the state is the one the implementation
    left.  An expression always gives a declaration, a new object for that
    definition, and only the object counter moves. *)
Theorem evaluateSubroutine_outcomes
    (api : Api) (subroutine : SubroutineDefinition) (w w2 : World) (result : Res PyValue) :
  call (implementation subroutine) api (loaded_handles subroutine w)
       (entered subroutine w) = (result, w2) →
  let out := evaluateSubroutine api subroutine w in
  entered subroutine w
  = log_implementation_call (id subroutine)
      (set_nextSlotId (nextSlotId w + argumentCount subroutine) w)
  ∧ nextSlotId out.2 = nextSlotId w2
  ∧ implementation_calls out.2 = implementation_calls w2
  ∧ declarations out.2 = declarations w2
  ∧ nextSubroutineId out.2 = nextSubroutineId w2
  ∧ (∀ e, result = inl e → out = (inl e, w2))
  ∧ (∀ v, result = inr v → (∀ b, v ≠ PyExpr b) →
          out = (inl (TealInputError BodyNotExpr), w2))
  ∧ (∀ b, result = inr (PyExpr b) →
          ∃ decl, out = (inr decl, set_nextObjectId (nextObjectId w2 + 1) w2)
                  ∧ oid decl = nextObjectId w2
                  ∧ decl_subroutine decl = subroutine
                  ∧ body decl = Seq (prologue subroutine (nextSlotId w) ++ [b])).
Proof.
  intros Hcall. cbv zeta. rewrite evaluateSubroutine_eq. cbv zeta.
  rewrite loaded_handles_eq in Hcall. rewrite Hcall.
  split; [done|].
  destruct result as [e|[b|v|v|r]]; simpl; do 4 (split; [done|]).
  - split; [by intros e' [= <-]|]. split; [done|done].
  - split; [done|]. split.
    + intros v' [= <-] Hnot. by destruct (Hnot b).
    + intros b' [= <-]. by eexists.
  - split; [done|]. split; [|done]. by intros v' [= <-].
  - split; [done|]. split; [|done]. by intros v' [= <-].
  - split; [done|]. split; [|done]. by intros v' [= <-].
Qed.

(** *** The declaration: lowering, type and return flag *)

Lemma teal_Seq options exprs : teal options (Seq exprs) = teal_all options exprs.
Proof. simpl. induction exprs as [|x rest IH]; simpl; [done|]. by rewrite IH. Qed.

Lemma teal_all_stores options first positions authored :
  teal_all options ((store_of_param first <$> positions) ++ [authored])
  = (code <- teal options authored ;; ret ((store_op first <$> positions) ++ code)).
Proof.
  induction positions as [|i rest IH]; csimpl.
  - destruct (teal options authored) as [e|code]; simpl; [done|].
    unfold ret. by rewrite app_nil_r.
  - rewrite IH. by destruct (teal options authored).
Qed.

Lemma type_of_Seq_snoc exprs authored :
  type_of (Seq (exprs ++ [authored])) = type_of authored.
Proof.
  simpl. induction exprs as [|x rest IH]; [done|].
  change ((x :: rest) ++ [authored]) with (x :: (rest ++ [authored])).
  destruct (rest ++ [authored]) as [|y tail] eqn:Hrest; [by destruct rest|].
  exact IH.
Qed.

Lemma has_return_Seq_snoc exprs authored :
  has_return (Seq (exprs ++ [authored])) = has_return authored.
Proof.
  simpl. induction exprs as [|x rest IH]; [done|].
  change ((x :: rest) ++ [authored]) with (x :: (rest ++ [authored])).
  destruct (rest ++ [authored]) as [|y tail] eqn:Hrest; [by destruct rest|].
  exact IH.
Qed.

Lemma teal_stores options first positions :
  teal options (Seq (store_of_param first <$> positions))
  = inr (store_op first <$> positions).
Proof.
  rewrite teal_Seq. induction positions as [|i rest IH]; csimpl; [done|].
  by rewrite IH.
Qed.

Lemma evaluateSubroutine_inv api subroutine w decl w' :
  evaluateSubroutine api subroutine w = (inr decl, w') →
  ∃ authored w2,
    call (implementation subroutine) api (loaded_handles subroutine w)
         (entered subroutine w) = (inr (PyExpr authored), w2)
    ∧ body decl = Seq (prologue subroutine (nextSlotId w) ++ [authored]).
Proof.
  rewrite evaluateSubroutine_eq, loaded_handles_eq. cbv zeta.
  destruct (call _ _ _ _) as [[e|[authored|v|v|r]] w2]; try done.
  intros [= <- _]. by exists authored, w2.
Qed.

(** X11: lowering a declaration built by [evaluateSubroutine] lowers the
    body the implementation returned and puts in front of its instructions
    one store per parameter, the store of the last parameter's slot first
    and that of the first parameter's slot last; it raises exactly what
    lowering the authored body raises. *)
Theorem SubroutineDeclaration_teal_prologue
    (api : Api) (subroutine : SubroutineDefinition) (w w' : World)
    (decl : SubroutineDeclaration) :
  evaluateSubroutine api subroutine w = (inr decl, w') →
  ∃ authored w2,
    call (implementation subroutine) api (loaded_handles subroutine w)
         (entered subroutine w) = (inr (PyExpr authored), w2)
    ∧ ∀ options,
        SubroutineDeclaration_teal decl options
        = match teal options authored with
          | inl e => inl e
          | inr code =>
              inr ((store_op (nextSlotId w) <$> reverse (seq 0 (argumentCount subroutine)))
                   ++ code)
          end.
Proof.
  intros (authored & w2 & Hcall & Hbody)%evaluateSubroutine_inv.
  exists authored, w2. split; [done|]. intros options.
  unfold SubroutineDeclaration_teal. rewrite Hbody, teal_Seq. unfold prologue.
  rewrite teal_all_stores. by destruct (teal options authored).
Qed.

(** X12: the type and the return flag of a declaration built by
    [evaluateSubroutine] are those of the body the implementation returned,
    however many parameters there are; the declared return type of the
    definition plays no part. *)
Theorem SubroutineDeclaration_type_of_authored
    (api : Api) (subroutine : SubroutineDefinition) (w w' : World)
    (decl : SubroutineDeclaration) :
  evaluateSubroutine api subroutine w = (inr decl, w') →
  ∃ authored w2,
    call (implementation subroutine) api (loaded_handles subroutine w)
         (entered subroutine w) = (inr (PyExpr authored), w2)
    ∧ SubroutineDeclaration_type_of decl = type_of authored
    ∧ SubroutineDeclaration_has_return decl = has_return authored.
Proof.
  intros (authored & w2 & Hcall & Hbody)%evaluateSubroutine_inv.
  exists authored, w2. split; [done|].
  unfold SubroutineDeclaration_type_of, SubroutineDeclaration_has_return.
  rewrite Hbody. split; [apply type_of_Seq_snoc|apply has_return_Seq_snoc].
Qed.

(** *** The prologue against the caller's pushes *)

Lemma run_stores_binds {V} first n (values below : list V) scratch :
  length values = n →
  ∃ scratch',
    run_stores (store_op first <$> reverse (seq 0 n)) (pushed values below) scratch
    = Some (below, scratch')
    ∧ (∀ i v, values !! i = Some v → scratch' !! (first + i) = Some v)
    ∧ (∀ s, (s < first ∨ first + n ≤ s)%nat → scratch' !! s = scratch !! s).
Proof.
  revert values scratch. induction n as [|n IH]; intros values scratch Hlen.
  - destruct values; [|done]. exists scratch. by repeat split.
  - destruct (decide (values = [])) as [->|Hne]; [done|].
    destruct (exists_last Hne) as (front & v & ->).
    rewrite length_app in Hlen. simpl in Hlen.
    assert (Hfront : length front = n) by lia.
    destruct (IH front (<[first + n := v]> scratch) Hfront)
      as (scratch' & Hrun & Hbound & Hother).
    exists scratch'. split; [|split].
    + rewrite seq_S, reverse_app. unfold pushed in *.
      rewrite reverse_app. simpl. exact Hrun.
    + intros i x Hi. destruct (decide (i < n)) as [Hlt|Hge].
      * apply Hbound. by rewrite lookup_app_l in Hi by lia.
      * assert (i = n) as ->.
        { apply lookup_lt_Some in Hi. rewrite length_app in Hi. simpl in Hi. lia. }
        rewrite lookup_app_r, Hfront, Nat.sub_diag in Hi by lia.
        injection Hi as <-.
        rewrite Hother by lia. apply lookup_insert_eq.
    + intros s Hs. rewrite Hother by lia. apply lookup_insert_ne. lia.
Qed.

(** X13: the prologue undoes the caller's pushes.  A declaration built by
    [evaluateSubroutine] lowers to the lowering of its stores followed by
    the lowering of the body the implementation returned.  That program of
    stores, run on a stack onto which the n arguments were pushed in order,
    pops exactly those n values, leaves the argument pushed at position i in
    the slot allocated for parameter i, and changes no slot other than the n
    parameter slots. *)
Theorem prologue_binds_arguments {V}
    (api : Api) (subroutine : SubroutineDefinition) (w w' : World)
    (decl : SubroutineDeclaration)
    (values below : list V) (scratch : gmap nat V) :
  evaluateSubroutine api subroutine w = (inr decl, w') →
  length values = argumentCount subroutine →
  ∃ authored w2 program scratch',
    call (implementation subroutine) api (loaded_handles subroutine w)
         (entered subroutine w) = (inr (PyExpr authored), w2)
    ∧ body decl = Seq (prologue subroutine (nextSlotId w) ++ [authored])
    ∧ (∀ options, teal options (Seq (prologue subroutine (nextSlotId w))) = inr program)
    ∧ length program = argumentCount subroutine
    ∧ (∀ options,
         SubroutineDeclaration_teal decl options
         = match teal options authored with
           | inl e => inl e
           | inr code => inr (program ++ code)
           end)
    ∧ run_stores program (pushed values below) scratch = Some (below, scratch')
    ∧ (∀ i v, values !! i = Some v →
              parameter_slots subroutine w !! i = Some (nextSlotId w + i)
              ∧ scratch' !! (nextSlotId w + i) = Some v)
    ∧ (∀ s, s ∉ parameter_slots subroutine w → scratch' !! s = scratch !! s).
Proof.
  intros (authored & w2 & Hcall & Hbody)%evaluateSubroutine_inv Hlen.
  destruct (run_stores_binds (nextSlotId w) (argumentCount subroutine) values below
              scratch Hlen) as (scratch' & Hrun & Hbound & Hother).
  exists authored, w2,
    (store_op (nextSlotId w) <$> reverse (seq 0 (argumentCount subroutine))), scratch'.
  split; [done|]. split; [done|].
  split; [intros options; apply teal_stores|].
  split; [by rewrite length_fmap, length_reverse, length_seq|].
  split; [|split; [done|split]].
  - intros options. unfold SubroutineDeclaration_teal.
    rewrite Hbody, teal_Seq. unfold prologue. rewrite teal_all_stores.
    by destruct (teal options authored).
  - intros i v Hi. split; [|by apply Hbound].
    rewrite parameter_slots_eq. apply lookup_seq_lt.
    apply lookup_lt_Some in Hi. lia.
  - intros s Hs. apply Hother. rewrite parameter_slots_eq, elem_of_seq in Hs. lia.
Qed.

(** *** The cache across definitions and across failures *)

(** X14: what a request for a declaration itself touches.  Answered from
    the definition, it changes nothing.  Otherwise the implementation runs,
    and relative to the state the implementation left, the request changes
    the declaration of this definition at most: the declarations of
    definitions with another id, the id counter, the slot counter and the
    log of invocations are as the implementation left them. *)
Theorem getDeclaration_frame
    (depth : nat) (registry : nat -> option SubroutineDefinition)
    (self : SubroutineDefinition) (w : World) :
  (∀ cached, declarations w !! id self = Some cached →
             getDeclaration depth registry self w = (inr (declaration_of self cached), w))
  ∧ (declarations w !! id self = None →
     let run := call (implementation self) (api_below depth registry)
                  (loaded_handles self w) (entered self w) in
     let out := getDeclaration (S depth) registry self w in
     (∀ other, other ≠ id self →
               declarations out.2 !! other = declarations run.2 !! other)
     ∧ nextSubroutineId out.2 = nextSubroutineId run.2
     ∧ nextSlotId out.2 = nextSlotId run.2
     ∧ implementation_calls out.2 = implementation_calls run.2).
Proof.
  split; [intros cached; apply getDeclaration_cached|].
  intros Hnone. cbv zeta. rewrite (getDeclaration_miss _ _ _ _ Hnone). cbv zeta.
  rewrite loaded_handles_eq.
  destruct (call _ _ _ _) as [[e|[authored|v|v|r]] w2]; simpl; try done.
  split; [|done]. intros other Hother. by apply lookup_insert_ne.
Qed.

(** X15: a request that fails is not remembered.  The failure is the
    exception the implementation raised, or the [TealInputError] for a body
    that is not an expression; the state after it is exactly the one the
    implementation left, so nothing was stored.  If the definition then
    still holds no declaration, the next request calls the implementation
    again, and when that call returns an expression the declaration built
    from it is stored. *)
Theorem getDeclaration_retries_after_failure
    (depth : nat) (registry : nat -> option SubroutineDefinition)
    (self : SubroutineDefinition) (w w1 : World) (e : Exception) :
  declarations w !! id self = None →
  getDeclaration (S depth) registry self w = (inl e, w1) →
  let run := call (implementation self) (api_below depth registry)
               (loaded_handles self w) (entered self w) in
  w1 = run.2
  ∧ (run.1 = inl e
     ∨ e = TealInputError BodyNotExpr ∧ ∃ v, run.1 = inr v ∧ ∀ b, v ≠ PyExpr b)
  ∧ (declarations w1 !! id self = None →
     ∀ depth' registry' authored w2,
       call (implementation self) (api_below depth' registry')
            (loaded_handles self w1) (entered self w1) = (inr (PyExpr authored), w2) →
       ∃ decl w3,
         getDeclaration (S depth') registry' self w1 = (inr decl, w3)
         ∧ body decl = Seq (prologue self (nextSlotId w1) ++ [authored])
         ∧ declarations w3 !! id self = Some (cache_of decl)).
Proof.
  intros Hnone Hfail. cbv zeta.
  rewrite (getDeclaration_miss _ _ _ _ Hnone) in Hfail. cbv zeta in Hfail.
  rewrite loaded_handles_eq.
  split; [|split].
  - destruct (call _ _ _ _) as [[e'|[authored|v|v|r]] w2]; simpl in *; congruence.
  - destruct (call _ _ _ _) as [[e'|[authored|v|v|r]] w2]; simpl in *;
      try (left; congruence); try done;
      right; (split; [congruence|]); eexists; (split; [done|]); by intros b.
  - intros Hnone1 depth' registry' authored w2 Hcall.
    rewrite loaded_handles_eq in Hcall.
    rewrite (getDeclaration_miss _ _ _ _ Hnone1). cbv zeta. rewrite Hcall.
    eexists _, _. split; [done|]. split; [done|]. apply lookup_insert_eq.
Qed.

(** X16: parameter slots of two compilations never overlap.  When the
    implementation of the first definition leaves the slot counter no lower
    than it found it, every parameter slot of a definition compiled next has
    a greater number than every parameter slot of the first. *)
Theorem parameter_slots_of_successive_compilations
    (api : Api) (a b : SubroutineDefinition) (w : World) (s t : nat) :
  (nextSlotId w + argumentCount a
   ≤ nextSlotId (call (implementation a) api (loaded_handles a w) (entered a w)).2)%nat →
  s ∈ parameter_slots a w →
  t ∈ parameter_slots b (evaluateSubroutine api a w).2 →
  s < t.
Proof.
  intros Hmonotone. rewrite !parameter_slots_eq, !elem_of_seq.
  rewrite loaded_handles_eq in Hmonotone.
  rewrite evaluateSubroutine_eq. cbv zeta.
  destruct (call _ _ _ _) as [[e|[authored|v|v|r]] w2]; simpl in *; lia.
Qed.

(** *** The decorator and the wrapper *)

Lemma SubroutineFnWrapper_init_returns
    Expr_type_of fnImplementation returnType name input_types w self :
  (SubroutineFnWrapper_init Expr_type_of fnImplementation returnType name
     input_types w).1 = inr self →
  (SubroutineDefinition_init Expr_type_of fnImplementation returnType name
     input_types w).1 = inr (wrapped self).
Proof.
  unfold SubroutineFnWrapper_init.
  destruct (SubroutineDefinition_init _ _ _ _ _ _) as [[e|d] w1]; [done|].
  simpl. by intros [= <-].
Qed.

(** X17: a function decorated with [Subroutine].  Calling the wrapper with
    any keyword argument is refused, with the keys, whatever the positional
    arguments are.  A positional call that returns a call node got as many
    arguments as the function has parameters, and the node holds them and
    the wrapper's definition; its type is the return type given to the
    decorator and its return flag is false.  The wrapper is named as the
    decorator says, or after the function. *)
Theorem decorated_function_call
    (Expr_type_of : Res TealType.t) (decorator : Subroutine.t) (f : HostFunction)
    (w : World) (self : SubroutineFnWrapper) :
  (Subroutine.call Expr_type_of decorator (Function f) w).1 = inr self →
  (∀ supplied kwargs, kwargs ≠ [] →
     SubroutineFnWrapper_call self supplied kwargs = KeywordArgumentsRejected kwargs.*1)
  ∧ (∀ supplied call,
       SubroutineFnWrapper_call self supplied [] = Invoked (inr call) →
       length supplied = length (parameters f)
       ∧ args call = supplied
       ∧ subroutine call = wrapped self
       ∧ SubroutineCall_type_of call = Subroutine.returnType decorator
       ∧ SubroutineCall_has_return call = false)
  ∧ SubroutineFnWrapper_name self = default (fn_name f) (Subroutine.name decorator).
Proof.
  unfold Subroutine.call. intros Hinit%SubroutineFnWrapper_init_returns.
  destruct (SubroutineDefinition_init_returns Expr_type_of _ _ _ _ _ _ Hinit)
    as (f' & [= <-] & _ & Hparams & _).
  rewrite init_fst in Hinit. unfold init_attributes in Hinit.
  destruct (match Subroutine.input_types decorator with Some _ => _ | None => _ end);
    [done|].
  destruct (match annotations f !! "return" with Some _ => _ | None => _ end); [done|].
  destruct (check_parameters _ _ _ _ _ _ _) as [e'|r]; [done|].
  simpl in Hinit.
  assert (Hname : ∀ given : option string,
            match given with
            | Some nameStr => (ret nameStr : Res string)
            | None => if has_name f then ret (fn_name f)
                      else raise (PyException "AttributeError")
            end = inl (PyException "AttributeError")
            ∨ match given with
              | Some nameStr => (ret nameStr : Res string)
              | None => if has_name f then ret (fn_name f)
                        else raise (PyException "AttributeError")
              end = inr (default (fn_name f) given)).
  { intros [given|]; [by right|]. destruct (has_name f); [by right|by left]. }
  destruct (Hname (Subroutine.name decorator)) as [Hgiven|Hgiven];
    rewrite Hgiven in Hinit; [done|].
  simpl in Hinit. injection Hinit as Hself.
  split; [|split].
  - intros supplied kwargs Hkw. unfold SubroutineFnWrapper_call.
    rewrite decide_True; [done|]. by destruct kwargs.
  - intros supplied call. unfold SubroutineFnWrapper_call. simpl.
    intros [= (Hlen & _ & _ & ->)%invoke_returns].
    unfold argumentCount in Hlen. rewrite Hparams in Hlen.
    unfold SubroutineCall_type_of, SubroutineCall_has_return. simpl.
    by rewrite <- Hself.
  - unfold SubroutineFnWrapper_name. by rewrite <- Hself.
Qed.

Lemma SubroutineFnWrapper_queries depth registry self w :
  SubroutineFnWrapper_type_of depth registry self w
  = (match (getDeclaration depth registry (wrapped self) w).1 with
     | inl e => inl e
     | inr decl => inr (SubroutineDeclaration_type_of decl)
     end, (getDeclaration depth registry (wrapped self) w).2)
  ∧ SubroutineFnWrapper_has_return depth registry self w
    = (match (getDeclaration depth registry (wrapped self) w).1 with
       | inl e => inl e
       | inr decl => inr (SubroutineDeclaration_has_return decl)
       end, (getDeclaration depth registry (wrapped self) w).2).
Proof.
  unfold SubroutineFnWrapper_type_of, SubroutineFnWrapper_has_return.
  by destruct (getDeclaration depth registry (wrapped self) w) as [[e|decl] w1].
Qed.

(** X18: the queries of a wrapper compile lazily and once.  When
    [type_of()] is the first request on a definition that holds no
    declaration and returns, the implementation has been called and the type
    is that of the body it returned; beyond what the implementation did, the
    query logged no invocation.  A following [type_of()] or [has_return()]
    answers from the stored declaration, with the type and the return flag
    of that same body, and leaves the state as it is, the log of invocations
    included. *)
Theorem wrapper_queries_compile_once
    (depth : nat) (registry : nat -> option SubroutineDefinition)
    (self : SubroutineFnWrapper) (w w1 : World) (t : TealType.t) :
  declarations w !! id (wrapped self) = None →
  SubroutineFnWrapper_type_of (S depth) registry self w = (inr t, w1) →
  let run := call (implementation (wrapped self)) (api_below depth registry)
               (loaded_handles (wrapped self) w) (entered (wrapped self) w) in
  ∃ authored,
    run.1 = inr (PyExpr authored)
    ∧ t = type_of authored
    ∧ implementation_calls w1 = implementation_calls run.2
    ∧ ∀ depth' registry',
        SubroutineFnWrapper_type_of depth' registry' self w1 = (inr t, w1)
        ∧ SubroutineFnWrapper_has_return depth' registry' self w1
          = (inr (has_return authored), w1).
Proof.
  intros Hnone. cbv zeta.
  destruct (SubroutineFnWrapper_queries (S depth) registry self w) as [-> _].
  rewrite (getDeclaration_miss _ _ _ _ Hnone). cbv zeta.
  rewrite loaded_handles_eq.
  destruct (call _ _ _ _) as [[e|[authored|v|v|r]] w2]; simpl; try done.
  intros [= <- <-]. exists authored.
  split; [done|].
  split; [unfold SubroutineDeclaration_type_of; simpl; apply type_of_Seq_snoc|].
  split; [done|].
  intros depth' registry'.
  destruct (SubroutineFnWrapper_queries depth' registry' self
              (set_declarations
                 (<[id (wrapped self) :=
                      cache_of {| oid := nextObjectId w2; decl_subroutine := wrapped self;
                                  body := Seq (prologue (wrapped self) (nextSlotId w)
                                               ++ [authored]) |}]> (declarations w2))
                 (set_nextObjectId (nextObjectId w2 + 1) w2))) as [-> ->].
  rewrite (getDeclaration_cached depth' registry' (wrapped self) _
             (cache_of {| oid := nextObjectId w2; decl_subroutine := wrapped self;
                          body := Seq (prologue (wrapped self) (nextSlotId w)
                                       ++ [authored]) |}))
    by apply lookup_insert_eq.
  unfold SubroutineDeclaration_type_of, SubroutineDeclaration_has_return.
  cbn [fst snd declaration_of cache_of cached_body body].
  by rewrite type_of_Seq_snoc, has_return_Seq_snoc.
Qed.

(** *** Printing, equality and hashing of definitions *)

(** X19: [str] tells definitions apart by their id: two definitions print
    alike exactly when they have the same id. *)
Theorem SubroutineDefinition_str_inj (a b : SubroutineDefinition) :
  SubroutineDefinition_str a = SubroutineDefinition_str b ↔ id a = id b.
Proof.
  unfold SubroutineDefinition_str. split; [|by intros ->].
  intros Hpretty%(inj (String.app "subroutine#")). by apply (inj pretty) in Hpretty.
Qed.

Section EqualityProperties.
Context (function_eqb : HostFunction → HostFunction → bool) (hash : nat → Z).

(** X20: equality agrees with hashing.  Definitions that [==] finds equal
    have the same id and therefore the same hash, whatever [==] on the
    implementations and [hash] on integers do; a definition is never equal
    to something that is not a definition. *)
Theorem SubroutineDefinition_eq_hash (self other : SubroutineDefinition) :
  SubroutineDefinition_eq function_eqb self (ODefinition other) = true →
  id self = id other
  ∧ SubroutineDefinition_hash hash self = SubroutineDefinition_hash hash other
  ∧ ∀ r, SubroutineDefinition_eq function_eqb self (OAnything r) = false.
Proof.
  unfold SubroutineDefinition_eq, SubroutineDefinition_hash.
  intros [Hid%Nat.eqb_eq _]%andb_true_iff. by rewrite Hid.
Qed.

(** X21: two definitions returned by different constructions are never
    equal, even when they were built from the same function with the same
    arguments. *)
Theorem constructions_never_equal
    (Expr_type_of : Res TealType.t) (reqs : list Request) (w : World)
    (i j : nat) (a b : SubroutineDefinition) :
  (init_all Expr_type_of reqs w).1 !! i = Some (inr a) →
  (init_all Expr_type_of reqs w).1 !! j = Some (inr b) →
  i ≠ j →
  SubroutineDefinition_eq function_eqb a (ODefinition b) = false.
Proof.
  intros Ha%init_all_id Hb%init_all_id Hij. unfold SubroutineDefinition_eq.
  rewrite (proj2 (Nat.eqb_neq (id a) (id b))); [done|]. lia.
Qed.

End EqualityProperties.

(** *** The properties at sample programs *)

Lemma init_all_ids_increase_witness :
  (init_all class_call_raises sample_requests world0).1 !! 0 = Some (inr add_def)
  ∧ (init_all class_call_raises sample_requests world0).1 !! 2
    = Some (inr (definition_of 2 mix_fn [ExprClass; ScratchVarClass; ExprClass] {["p1"]}))
  ∧ id add_def = nextSubroutineId world0 + 0
  ∧ (0 < 2 →
     id add_def
     < id (definition_of 2 mix_fn [ExprClass; ScratchVarClass; ExprClass] {["p1"]}))
  ∧ (id add_def
     = id (definition_of 2 mix_fn [ExprClass; ScratchVarClass; ExprClass] {["p1"]}) →
     0 = 2).
Proof.
  split; [reflexivity|]. split; [reflexivity|].
  exact (init_all_ids_increase class_call_raises sample_requests world0 0 2 _ _
           eq_refl eq_refl).
Defined.

Lemma init_raise_sites_witness :
  (SubroutineDefinition_init class_call_raises (Function expr_default_fn) TealType.uint64
     None None world0).1 = inl (PyException "AttributeError")
  ∧ ((∃ why, PyException "AttributeError" = TealInputError why)
     ∨ Function expr_default_fn = Uninspectable (PyException "AttributeError")
     ∨ (∃ f p, Function expr_default_fn = Function f ∧ p ∈ parameters f
               ∧ param_default p.2 = Default (inl (PyException "AttributeError")))
     ∨ (∃ f, Function expr_default_fn = Function f ∧ (None : option string) = None
             ∧ has_name f = false
             ∧ PyException "AttributeError" = PyException "AttributeError")).
Proof.
  split; [reflexivity|].
  exact (init_raise_sites class_call_raises (Function expr_default_fn)
           TealType.uint64 None None world0 _ eq_refl).
Defined.

(** [functools.partial(add)] is let through by every check and refused at
    the very end, for want of a [__name__], unless a name is given. *)
Example init_partial_add :
  (SubroutineDefinition_init class_call_raises (Function partial_add) TealType.uint64
     None None world0).1 = inl (PyException "AttributeError")
  ∧ ∃ self,
      (SubroutineDefinition_init class_call_raises (Function partial_add) TealType.uint64
         (Some "sum") None world0).1 = inr self
      ∧ name self = "sum".
Proof. split; [reflexivity|]. eexists. split; reflexivity. Qed.

Lemma init_records_signature_witness :
  (SubroutineDefinition_init class_call_raises (Function mix_fn) TealType.uint64
     None None world0).1 = inr mix_def
  ∧ ∃ f, Function mix_fn = Function f
         ∧ implementation mix_def = f
         ∧ arguments mix_def = (parameters f).*1
         ∧ argumentCount mix_def = length (parameters f)
         ∧ expected_arg_types mix_def
           = annotated_class (annotations f) <$> arguments mix_def
         ∧ (∀ param, param ∈ by_ref_args mix_def
                     ↔ param ∈ arguments mix_def
                       ∧ annotated_class (annotations f) param = ScratchVarClass)
         ∧ name mix_def = default (fn_name f) None
         ∧ returnType mix_def = TealType.uint64
         ∧ input_types mix_def = None.
Proof.
  split; [reflexivity|].
  exact (init_records_signature class_call_raises (Function mix_fn) TealType.uint64
           None None world0 mix_def eq_refl).
Defined.

Lemma invoke_on_constructed_witness :
  (SubroutineDefinition_init class_call_raises (Function add_fn) TealType.uint64
     None None world0).1 = inr add_def
  ∧ (∀ call,
       invoke add_def [PyExpr (Int 1); PyExpr (Int 2)] = inr call
       ↔ length [PyExpr (Int 1); PyExpr (Int 2)] = length (parameters add_fn)
         ∧ (∀ i arg, [PyExpr (Int 1); PyExpr (Int 2)] !! i = Some arg →
                     ∃ param, (parameters add_fn).*1 !! i = Some param
                              ∧ isinstance arg (annotated_class (annotations add_fn) param)
                                = true)
         ∧ none_typed_free [PyExpr (Int 1); PyExpr (Int 2)]
         ∧ call = {| subroutine := add_def; args := [PyExpr (Int 1); PyExpr (Int 2)] |})
  ∧ (∀ e, invoke add_def [PyExpr (Int 1); PyExpr (Int 2)] = inl e →
          ∃ why, e = TealInputError why).
Proof.
  split; [reflexivity|].
  exact (invoke_on_constructed class_call_raises add_fn TealType.uint64 None None world0
           add_def [PyExpr (Int 1); PyExpr (Int 2)] eq_refl).
Defined.

Lemma handles_follow_annotations_witness :
  (SubroutineDefinition_init class_call_raises (Function mix_fn) TealType.uint64
     None None world0).1 = inr mix_def
  ∧ length (loaded_handles mix_def world0) = length (parameters mix_fn)
  ∧ ∀ i param, (parameters mix_fn).*1 !! i = Some param →
      loaded_handles mix_def world0 !! i
      = Some (let s := {| slot_id := nextSlotId world0 + i |} in
              match annotated_class (annotations mix_fn) param with
              | ScratchVarClass =>
                  LoadedVar {| dyn_slot := s; dynamic_type := TealType.anytype |}
              | ExprClass => LoadedExpr (ScratchLoad s TealType.anytype)
              end).
Proof.
  split; [reflexivity|].
  exact (handles_follow_annotations class_call_raises mix_fn TealType.uint64 None None
           world0 world0 mix_def eq_refl).
Defined.

Example mix_handles :
  loaded_handles mix_def world0
  = [ LoadedExpr (ScratchLoad {| slot_id := 256 |} TealType.anytype);
      LoadedVar {| dyn_slot := {| slot_id := 257 |}; dynamic_type := TealType.anytype |};
      LoadedExpr (ScratchLoad {| slot_id := 258 |} TealType.anytype) ].
Proof. reflexivity. Qed.

Lemma evaluateSubroutine_outcomes_witness :
  call (implementation late_def) (api_below 0 no_definitions)
       (loaded_handles late_def world0) (entered late_def world0)
  = (inr (PyOther "None"), set_nextSlotId 307 (entered late_def world0))
  ∧ evaluateSubroutine (api_below 0 no_definitions) late_def world0
    = (inl (TealInputError BodyNotExpr), set_nextSlotId 307 (entered late_def world0)).
Proof.
  split; [reflexivity|].
  pose proof (evaluateSubroutine_outcomes (api_below 0 no_definitions) late_def world0
                _ _ eq_refl) as (_ & _ & _ & _ & _ & _ & Hother & _).
  exact (Hother _ eq_refl (λ b (H : PyOther "None" = PyExpr b),
                             eq_ind (PyOther "None")
                               (λ v, match v with PyOther _ => True | _ => False end)
                               I _ H)).
Defined.

Lemma SubroutineDeclaration_teal_prologue_witness :
  ∃ decl w',
    evaluateSubroutine (api_below 0 no_definitions) mix_def world0 = (inr decl, w')
    ∧ ∃ authored w2,
        call (implementation mix_def) (api_below 0 no_definitions)
             (loaded_handles mix_def world0) (entered mix_def world0)
        = (inr (PyExpr authored), w2)
        ∧ ∀ options,
            SubroutineDeclaration_teal decl options
            = match teal options authored with
              | inl e => inl e
              | inr code =>
                  inr ((store_op (nextSlotId world0)
                          <$> reverse (seq 0 (argumentCount mix_def))) ++ code)
              end.
Proof.
  eexists _, _. split; [vm_compute; reflexivity|].
  eapply (SubroutineDeclaration_teal_prologue (api_below 0 no_definitions) mix_def world0).
  vm_compute. reflexivity.
Defined.

Example mix_declaration_lowered :
  match (evaluateSubroutine (api_below 0 no_definitions) mix_def world0).1 with
  | inr decl =>
      SubroutineDeclaration_teal decl v4
      = inr [ {| op := Op_store; op_args := [ArgSlot {| slot_id := 258 |}] |};
              {| op := Op_store; op_args := [ArgSlot {| slot_id := 257 |}] |};
              {| op := Op_store; op_args := [ArgSlot {| slot_id := 256 |}] |};
              {| op := Op_int; op_args := [ArgInt 7] |} ]
  | inl _ => False
  end.
Proof. reflexivity. Qed.

Lemma SubroutineDeclaration_type_of_authored_witness :
  ∃ decl w',
    evaluateSubroutine (api_below 0 no_definitions) mix_def world0 = (inr decl, w')
    ∧ ∃ authored w2,
        call (implementation mix_def) (api_below 0 no_definitions)
             (loaded_handles mix_def world0) (entered mix_def world0)
        = (inr (PyExpr authored), w2)
        ∧ SubroutineDeclaration_type_of decl = type_of authored
        ∧ SubroutineDeclaration_has_return decl = has_return authored.
Proof.
  eexists _, _. split; [vm_compute; reflexivity|].
  eapply (SubroutineDeclaration_type_of_authored (api_below 0 no_definitions) mix_def
            world0).
  vm_compute. reflexivity.
Defined.

Lemma prologue_binds_arguments_witness :
  length [10; 20; 30] = argumentCount mix_def
  ∧ ∃ decl w',
      evaluateSubroutine (api_below 0 no_definitions) mix_def world0 = (inr decl, w')
      ∧ ∃ authored w2 program scratch',
          call (implementation mix_def) (api_below 0 no_definitions)
               (loaded_handles mix_def world0) (entered mix_def world0)
          = (inr (PyExpr authored), w2)
          ∧ body decl = Seq (prologue mix_def (nextSlotId world0) ++ [authored])
          ∧ (∀ options,
               teal options (Seq (prologue mix_def (nextSlotId world0))) = inr program)
          ∧ length program = argumentCount mix_def
          ∧ (∀ options,
               SubroutineDeclaration_teal decl options
               = match teal options authored with
                 | inl e => inl e
                 | inr code => inr (program ++ code)
                 end)
          ∧ run_stores program (pushed [10; 20; 30] [99]) (∅ : gmap nat nat)
            = Some ([99], scratch')
          ∧ (∀ i v, [10; 20; 30] !! i = Some v →
                    parameter_slots mix_def world0 !! i = Some (nextSlotId world0 + i)
                    ∧ scratch' !! (nextSlotId world0 + i) = Some v)
          ∧ (∀ s, s ∉ parameter_slots mix_def world0 →
                  scratch' !! s = (∅ : gmap nat nat) !! s).
Proof.
  split; [reflexivity|].
  eexists _, _. split; [vm_compute; reflexivity|].
  eapply (prologue_binds_arguments (api_below 0 no_definitions) mix_def world0);
    [vm_compute|]; reflexivity.
Defined.

Example late_fails_then_compiles :
  (getDeclaration_times 2 recursion_limit no_definitions late_def world0).1
  = [ inl (TealInputError BodyNotExpr);
      inr {| oid := 0; decl_subroutine := late_def;
             body := Seq [ScratchStackStore {| slot_id := 307 |}; Int 0] |} ].
Proof. reflexivity. Qed.

Lemma getDeclaration_retries_after_failure_witness :
  declarations world0 !! id late_def = None
  ∧ ∃ w1,
      getDeclaration 1 no_definitions late_def world0
      = (inl (TealInputError BodyNotExpr), w1)
      ∧ w1 = set_nextSlotId 307 (entered late_def world0)
      ∧ (declarations w1 !! id late_def = None →
         ∀ depth' registry' authored w2,
           call (implementation late_def) (api_below depth' registry')
                (loaded_handles late_def w1) (entered late_def w1)
           = (inr (PyExpr authored), w2) →
           ∃ decl w3,
             getDeclaration (S depth') registry' late_def w1 = (inr decl, w3)
             ∧ body decl = Seq (prologue late_def (nextSlotId w1) ++ [authored])
             ∧ declarations w3 !! id late_def = Some (cache_of decl)).
Proof.
  split; [reflexivity|].
  eexists. split; [vm_compute; reflexivity|].
  pose proof (getDeclaration_retries_after_failure 0 no_definitions late_def world0
                _ _ eq_refl eq_refl) as (Hstate & _ & Hagain).
  split; [exact Hstate|exact Hagain].
Defined.

Lemma parameter_slots_of_successive_compilations_witness :
  (nextSlotId world0 + argumentCount add_def
   ≤ nextSlotId (call (implementation add_def) (api_below 0 no_definitions)
                   (loaded_handles add_def world0) (entered add_def world0)).2)%nat
  ∧ 257 ∈ parameter_slots add_def world0
  ∧ 258 ∈ parameter_slots mix_def
            (evaluateSubroutine (api_below 0 no_definitions) add_def world0).2
  ∧ 257 < 258.
Proof.
  assert (Hmonotone :
            (nextSlotId world0 + argumentCount add_def
             ≤ nextSlotId (call (implementation add_def) (api_below 0 no_definitions)
                             (loaded_handles add_def world0) (entered add_def world0)).2)%nat).
  { exact (le_n 258). }
  assert (Hs : 257 ∈ parameter_slots add_def world0).
  { rewrite parameter_slots_eq. apply elem_of_seq.
    change (256 ≤ 257 < 258)%nat. lia. }
  assert (Ht : 258 ∈ parameter_slots mix_def
                       (evaluateSubroutine (api_below 0 no_definitions) add_def world0).2).
  { rewrite parameter_slots_eq. apply elem_of_seq.
    change (258 ≤ 258 < 261)%nat. lia. }
  split; [exact Hmonotone|]. split; [exact Hs|]. split; [exact Ht|].
  exact (parameter_slots_of_successive_compilations (api_below 0 no_definitions)
           add_def mix_def world0 257 258 Hmonotone Hs Ht).
Defined.

Lemma decorated_function_call_witness :
  (Subroutine.call class_call_raises sum_decorator (Function add_fn) world0).1
  = inr {| wrapped := sum_def |}
  ∧ (∀ supplied kwargs, kwargs ≠ [] →
       SubroutineFnWrapper_call {| wrapped := sum_def |} supplied kwargs
       = KeywordArgumentsRejected kwargs.*1)
  ∧ (∀ supplied call,
       SubroutineFnWrapper_call {| wrapped := sum_def |} supplied [] = Invoked (inr call) →
       length supplied = length (parameters add_fn)
       ∧ args call = supplied
       ∧ subroutine call = wrapped {| wrapped := sum_def |}
       ∧ SubroutineCall_type_of call = Subroutine.returnType sum_decorator
       ∧ SubroutineCall_has_return call = false)
  ∧ SubroutineFnWrapper_name {| wrapped := sum_def |}
    = default (fn_name add_fn) (Subroutine.name sum_decorator).
Proof.
  split; [reflexivity|].
  exact (decorated_function_call class_call_raises sum_decorator add_fn world0
           {| wrapped := sum_def |} eq_refl).
Defined.

Lemma wrapper_queries_compile_once_witness :
  declarations world0 !! id (wrapped {| wrapped := add_def |}) = None
  ∧ ∃ w1,
      SubroutineFnWrapper_type_of 1 no_definitions {| wrapped := add_def |} world0
      = (inr TealType.uint64, w1)
      ∧ ∃ authored,
          (call (implementation add_def) (api_below 0 no_definitions)
             (loaded_handles add_def world0) (entered add_def world0)).1
          = inr (PyExpr authored)
          ∧ TealType.uint64 = type_of authored
          ∧ implementation_calls w1 = [id add_def]
          ∧ ∀ depth' registry',
              SubroutineFnWrapper_type_of depth' registry' {| wrapped := add_def |} w1
              = (inr TealType.uint64, w1)
              ∧ SubroutineFnWrapper_has_return depth' registry' {| wrapped := add_def |} w1
                = (inr (has_return authored), w1).
Proof.
  split; [reflexivity|].
  eexists. split; [vm_compute; reflexivity|].
  exact (wrapper_queries_compile_once 0 no_definitions {| wrapped := add_def |} world0
           _ _ eq_refl eq_refl).
Defined.

Lemma SubroutineDefinition_eq_hash_witness :
  SubroutineDefinition_eq (λ _ _, true) add_def (ODefinition add_def) = true
  ∧ id add_def = id add_def
  ∧ SubroutineDefinition_hash Z.of_nat add_def = SubroutineDefinition_hash Z.of_nat add_def
  ∧ ∀ r, SubroutineDefinition_eq (λ _ _, true) add_def (OAnything r) = false.
Proof.
  split; [reflexivity|].
  exact (SubroutineDefinition_eq_hash (λ _ _, true) Z.of_nat add_def add_def eq_refl).
Defined.

Lemma constructions_never_equal_witness :
  (init_all class_call_raises sample_requests world0).1 !! 0 = Some (inr add_def)
  ∧ (init_all class_call_raises sample_requests world0).1 !! 2
    = Some (inr (definition_of 2 mix_fn [ExprClass; ScratchVarClass; ExprClass] {["p1"]}))
  ∧ 0 ≠ 2
  ∧ SubroutineDefinition_eq (λ _ _, true) add_def
      (ODefinition (definition_of 2 mix_fn [ExprClass; ScratchVarClass; ExprClass]
                      {["p1"]}))
    = false.
Proof.
  assert (Hne : 0 ≠ 2) by lia.
  split; [reflexivity|]. split; [reflexivity|]. split; [exact Hne|].
  exact (constructions_never_equal (λ _ _, true) class_call_raises sample_requests world0
           0 2 _ _ eq_refl eq_refl Hne).
Defined.
